(** * Homework tracker: the request handlers of [app.py] over the tables of
    [models.py], as pure functions on an explicit store.

    The SQLAlchemy session is modelled by explicit state passing: a handler
    takes the clock reading, the request and the store, and returns the new
    store together with the flashed messages and the response.  Tables are
    lists of rows in insertion (rowid) order.  The clock ([datetime.utcnow])
    is read once per request; the column defaults that stamp [created_at]
    and [submitted_at] read it again at the insert, a little later, so the
    stamps of the model stand for those later readings, and the theorems
    about the routes do not depend on their values. *)

From Stdlib Require Import ZArith NArith List String Ascii Floats Uint63.
From Stdlib Require Import Sorted Permutation Lia.
From stdpp Require Import base option list sorting gmap pretty.

Local Open Scope Z_scope.
Local Open Scope nat_scope.

(** ** Python values *)

(** A Python [str] is a sequence of Unicode code points. *)
Abbreviation pystr := (list N).

(** String literals of the source (all ASCII where they matter). *)
Definition py (s : string) : pystr :=
  map N_of_ascii (list_ascii_of_string s).

(** [str.isspace] on one code point: the code points CPython classifies as
    whitespace. *)
Definition is_space (c : N) : bool :=
  ((9 <=? c) && (c <=? 13) || (28 <=? c) && (c <=? 32)
   || (c =? 133) || (c =? 160) || (c =? 5760)
   || (8192 <=? c) && (c <=? 8202)
   || (c =? 8232) || (c =? 8233) || (c =? 8239) || (c =? 8287)
   || (c =? 12288))%N.

Fixpoint lstrip (s : pystr) : pystr :=
  match s with
  | c :: s' => if is_space c then lstrip s' else s
  | [] => []
  end.

Definition rstrip (s : pystr) : pystr := rev (lstrip (rev s)).

(** [str.strip()] with no argument. *)
Definition strip (s : pystr) : pystr := rstrip (lstrip s).

(** Truth value of a string: [bool(s)]. *)
Definition truthy (s : pystr) : bool :=
  match s with [] => false | _ :: _ => true end.

(** [x or d] where [x] is [None] or a string. *)
Definition or_default (x : option pystr) (d : pystr) : pystr :=
  match x with
  | Some s => if truthy s then s else d
  | None => d
  end.

(** [not x] where [x] is [None] or a string. *)
Definition falsy (x : option pystr) : bool :=
  match x with
  | Some s => negb (truthy s)
  | None => true
  end.

(** A naive UTC [datetime], in microseconds since the epoch. *)
Abbreviation datetime := Z.

Definition timedelta_days (d : Z) : Z := (d * 86400000000)%Z.

(** ** models.py *)

Record User := mkUser {
  user_id : nat;
  user_name : pystr;
  is_teacher : option bool
}.

Record Homework := mkHomework {
  hw_id : nat;
  title : pystr;
  subject : pystr;
  description : option pystr;
  due_date : datetime;
  color : option pystr;
  hw_created_at : option datetime
}.

Record Thread := mkThread {
  thread_id : nat;
  thread_homework_id : nat;
  author : pystr;
  message : pystr;
  thread_created_at : option datetime
}.

Record Resource := mkResource {
  resource_id : nat;
  resource_homework_id : nat;
  resource_title : option pystr;
  url : option pystr;
  resource_created_at : option datetime
}.

Record Submission := mkSubmission {
  submission_id : nat;
  homework_id : nat;
  student_id : nat;
  content : option pystr;
  submitted_at : option datetime;
  grade : option float;
  feedback : option pystr
}.

(** The database: one list of rows per table. *)
Record Store := mkStore {
  users : list User;
  homeworks : list Homework;
  threads : list Thread;
  resources : list Resource;
  submissions : list Submission
}.

Definition empty_store : Store := mkStore [] [] [] [] [].

(** The id an integer primary key receives on insert: one more than the
    largest id of the table, and 1 in an empty table. *)
Definition next_id (ids : list nat) : nat := S (foldr Nat.max 0 ids).

(** [Homework.query.get(hw_id)], the target of [get_or_404] and of the
    [Submission.homework] relationship, for the ids an integer column
    holds (below 2^63; the driver refuses larger ones). *)
Definition get_homework (s : Store) (i : nat) : option Homework :=
  find (fun hw => Nat.eqb (hw_id hw) i) (homeworks s).

(** [User.query.filter_by(name=n).first()]. *)
Definition first_user_by_name (s : Store) (n : pystr) : option User :=
  find (fun u => bool_decide (user_name u = n)) (users s).

(** ** Requests and responses *)

Inductive Method := GET | POST.

Record Request := mkRequest {
  method : Method;
  form : gmap pystr pystr
}.

Inductive Category := success | warning.

Inductive FlashMessage :=
| HomeworkCreated
| CommentPosted
| ResourceAdded
| SubmissionCannotBeEmpty
| SubmittedSuccessfully.

Inductive Exception := ValueError | AttributeError | KeyError.

Inductive Endpoint :=
| ep_index
| ep_homework_detail (hw_id : nat).

Record Bucket := mkBucket {
  bucket_total : nat;
  bucket_submitted : nat
}.

Record DashboardContext := mkDashboard {
  total : nat;
  pending : nat;
  completed : nat;
  avg_grade : option float;
  subjects : gmap pystr Bucket
}.

Inductive SeedBody := AlreadySeeded | SeededSampleData.

Inductive Response :=
| IndexPage (upcoming : list Homework)
| CreateHomeworkPage
| HomeworkDetailPage (hw : Homework) (subs : list Submission)
| DashboardPage (ctx : DashboardContext)
| Redirect (target : Endpoint)
| Body (b : SeedBody)
| NotFound
| BadRequest
| ServerError (e : Exception).

(** What a handler leaves behind: the committed store, the messages it
    flashed, and its response. *)
Record Result := mkResult {
  store : Store;
  flashes : list (FlashMessage * Category);
  response : Response
}.

(** ** Inserts *)

(** [db.session.add(row); db.session.commit()]: the row receives the next
    primary key of its table and is appended to it. *)
Definition add_user (mk : nat -> User) (s : Store) : User * Store :=
  let u := mk (next_id (map user_id (users s))) in
  (u, mkStore (users s ++ [u]) (homeworks s) (threads s) (resources s)
        (submissions s)).

Definition add_homework (mk : nat -> Homework) (s : Store) : Homework * Store :=
  let hw := mk (next_id (map hw_id (homeworks s))) in
  (hw, mkStore (users s) (homeworks s ++ [hw]) (threads s) (resources s)
         (submissions s)).

Definition add_thread (mk : nat -> Thread) (s : Store) : Thread * Store :=
  let t := mk (next_id (map thread_id (threads s))) in
  (t, mkStore (users s) (homeworks s) (threads s ++ [t]) (resources s)
        (submissions s)).

Definition add_resource_row (mk : nat -> Resource) (s : Store)
  : Resource * Store :=
  let r := mk (next_id (map resource_id (resources s))) in
  (r, mkStore (users s) (homeworks s) (threads s) (resources s ++ [r])
        (submissions s)).

Definition add_submission (mk : nat -> Submission) (s : Store)
  : Submission * Store :=
  let sub := mk (next_id (map submission_id (submissions s))) in
  (sub, mkStore (users s) (homeworks s) (threads s) (resources s)
          (submissions s ++ [sub])).

(** Early exit of a handler: [let? x := e else r in k] continues with [k]
    when [e] yields a value and answers [r] otherwise. *)
Notation "'let?' x ':=' e 'else' r 'in' k" :=
  (match e with Some x => k | None => r end)
  (at level 10, x name, e at level 200, r at level 200, k at level 200,
   only parsing).

(** ** The homepage *)

(** [ORDER BY due_date]: insertion into an ascending list.  Rows are
    inserted from the last to the first, each before the rows with the same
    due date, so rows with equal due dates keep their table order. *)
Fixpoint insert_by_due_date (hw : Homework) (l : list Homework)
  : list Homework :=
  match l with
  | [] => [hw]
  | x :: l' =>
      if (due_date hw <=? due_date x)%Z then hw :: l
      else x :: insert_by_due_date hw l'
  end.

Definition order_by_due_date (l : list Homework) : list Homework :=
  foldr insert_by_due_date [] l.

(** [Homework.query.filter(Homework.due_date >= now)
      .order_by(Homework.due_date).limit(n).all()]. *)
Definition upcoming_homework (now : datetime) (limit : nat) (s : Store)
  : list Homework :=
  take limit
    (order_by_due_date
       (filter (fun hw => (now <= due_date hw)%Z) (homeworks s))).

Definition index (now : datetime) (s : Store) : Result :=
  mkResult s [] (IndexPage (upcoming_homework now 10 s)).

(** ** Homework CRUD *)

Section Handlers.

(** [datetime.fromisoformat]: [None] stands for the [ValueError] it raises
    on a string that is not an ISO timestamp. *)
Variable fromisoformat : pystr -> option datetime.

Definition create_homework (now : datetime) (req : Request) (s : Store)
  : Result :=
  match method req with
  | POST =>
      let? title := form req !! py "title" else mkResult s [] BadRequest in
      let? subject := form req !! py "subject" else mkResult s [] BadRequest in
      let description := form req !! py "description" in
      let? raw := form req !! py "due_date" else mkResult s [] BadRequest in
      let? due_date := fromisoformat raw
        else mkResult s [] (ServerError ValueError) in
      let color := or_default (form req !! py "color") (py "#2d9cdb") in
      let '(_, s') :=
        add_homework
          (fun i => mkHomework i title subject description due_date
                      (Some color) (Some now)) s in
      mkResult s' [(HomeworkCreated, success)] (Redirect ep_index)
  | GET => mkResult s [] CreateHomeworkPage
  end.

End Handlers.

Definition homework_detail (now : datetime) (hid : nat) (req : Request)
    (s : Store) : Result :=
  let? hw := get_homework s hid else mkResult s [] NotFound in
  match method req with
  | POST =>
      let author := or_default (form req !! py "author") (py "Anonymous") in
      let message := strip (default [] (form req !! py "message")) in
      if truthy message then
        let '(_, s') :=
          add_thread
            (fun i => mkThread i (hw_id hw) author message
                        (Some now)) s in
        mkResult s' [(CommentPosted, success)]
          (Redirect (ep_homework_detail hid))
      else mkResult s [] (Redirect (ep_homework_detail hid))
  | GET =>
      let submissions :=
        filter (fun sub => homework_id sub = hw_id hw)
          (submissions s) in
      mkResult s [] (HomeworkDetailPage hw submissions)
  end.

(** The body of the handler: the route accepts POST only, so it runs on
    POST requests. *)
Definition add_resource (now : datetime) (hid : nat) (req : Request)
    (s : Store) : Result :=
  let? hw := get_homework s hid else mkResult s [] NotFound in
  let title := form req !! py "title" in
  let url := form req !! py "url" in
  if falsy url then mkResult s [] (Redirect (ep_homework_detail hid))
  else
    let '(_, s') :=
      add_resource_row
        (fun i => mkResource i (hw_id hw) title url (Some now)) s in
    mkResult s' [(ResourceAdded, success)]
      (Redirect (ep_homework_detail hid)).

(** The body of the handler: the route accepts POST only, so it runs on
    POST requests. *)
Definition submit_homework (now : datetime) (hid : nat) (req : Request)
    (s : Store) : Result :=
  let? hw := get_homework s hid else mkResult s [] NotFound in
  let student_name :=
    or_default (form req !! py "student_name") (py "Student") in
  let '(student, s1) :=
    match first_user_by_name s student_name with
    | Some student => (student, s)
    | None => add_user (fun i => mkUser i student_name (Some false)) s
    end in
  let content := form req !! py "content" in
  if falsy content then
    mkResult s1 [(SubmissionCannotBeEmpty, warning)]
      (Redirect (ep_homework_detail hid))
  else
    let '(_, s2) :=
      add_submission
        (fun i => mkSubmission i (hw_id hw) (user_id student)
                    content (Some now) None None) s1 in
    mkResult s2 [(SubmittedSuccessfully, success)]
      (Redirect (ep_homework_detail hid)).

(** ** Dashboard *)

(** [sum(grades)]: the accumulator starts at the integer 0 and adds the
    floats from left to right, in binary64.  (CPython from 3.12 on carries
    a compensation term along this sum; the properties below do not depend
    on how the sum rounds.) *)
Definition py_sum (grades : list float) : float :=
  fold_left PrimFloat.add grades PrimFloat.zero.

(** [len(grades)] as the float the division converts it to. *)
Definition float_of_len (n : nat) : float :=
  PrimFloat.of_uint63 (Uint63.of_Z (Z.of_nat n)).

(** [sum(grades) / len(grades) if grades else None]. *)
Definition average (grades : list float) : option float :=
  match grades with
  | [] => None
  | _ :: _ => Some (PrimFloat.div (py_sum grades) (float_of_len (length grades)))
  end.

(** [subjects.setdefault(k, v)]. *)
Definition setdefault (subjects : gmap pystr Bucket) (k : pystr) (v : Bucket)
  : gmap pystr Bucket :=
  match subjects !! k with
  | Some _ => subjects
  | None => <[k := v]> subjects
  end.

(** Body of the first loop: one Homework row. *)
Definition count_homework (subjects : gmap pystr Bucket) (hw : Homework)
  : gmap pystr Bucket :=
  let subj := subject hw in
  let subjects := setdefault subjects subj (mkBucket 0 0) in
  alter (fun b => mkBucket (S (bucket_total b)) (bucket_submitted b))
    subj subjects.

(** Body of the second loop: one Submission row.  [s.homework] is [None]
    when no Homework has the submission's [homework_id], and reading its
    [subject] then raises; so does indexing [subjects] by a missing key. *)
Definition count_submission (s : Store) (subjects : gmap pystr Bucket)
    (sub : Submission) : Exception + gmap pystr Bucket :=
  match get_homework s (homework_id sub) with
  | None => inl AttributeError
  | Some hw =>
      let subj := subject hw in
      match subjects !! subj with
      | None => inl KeyError
      | Some b =>
          inr (<[subj := mkBucket (bucket_total b) (S (bucket_submitted b))]>
                 subjects)
      end
  end.

(** The second loop, stopping at the first exception. *)
Fixpoint count_submissions (s : Store) (subjects : gmap pystr Bucket)
    (subs : list Submission) : Exception + gmap pystr Bucket :=
  match subs with
  | [] => inr subjects
  | sub :: subs' =>
      match count_submission s subjects sub with
      | inl e => inl e
      | inr subjects' => count_submissions s subjects' subs'
      end
  end.

(** The [subjects] dictionary of the dashboard. *)
Definition subject_breakdown (s : Store) : Exception + gmap pystr Bucket :=
  count_submissions s (fold_left count_homework (homeworks s) ∅)
    (submissions s).

(** [Submission.query.with_entities(Submission.homework_id).distinct()
      .count()]. *)
Definition completed_count (s : Store) : nat :=
  length (remove_dups (map homework_id (submissions s))).

(** [[s.grade for s in
      Submission.query.filter(Submission.grade.isnot(None)).all()]]. *)
Definition graded (s : Store) : list float :=
  omap grade (filter (fun sub => grade sub ≠ None) (submissions s)).

Definition dashboard (now : datetime) (s : Store) : Result :=
  let total := length (homeworks s) in
  let pending :=
    length (filter (fun hw => (now <= due_date hw)%Z) (homeworks s)) in
  let completed := completed_count s in
  let avg_grade := average (graded s) in
  match subject_breakdown s with
  | inl e => mkResult s [] (ServerError e)
  | inr subjects =>
      mkResult s []
        (DashboardPage (mkDashboard total pending completed avg_grade subjects))
  end.

(** ** Dev seed route *)

Definition seed (now : datetime) (s : Store) : Result :=
  if 0 <? length (homeworks s) then mkResult s [] (Body AlreadySeeded)
  else
    let '(hw1, s) :=
      add_homework
        (fun i => mkHomework i (py "Algebra worksheet") (py "Math")
                    (Some (py "Exercises 1-10"))
                    (now + timedelta_days 3)%Z (Some (py "#ff6b6b"))
                    (Some now)) s in
    let '(hw2, s) :=
      add_homework
        (fun i => mkHomework i (py "Short essay") (py "English")
                    (Some (py "Topic: Climate"))
                    (now + timedelta_days 7)%Z (Some (py "#ffd93d"))
                    (Some now)) s in
    let '(hw3, s) :=
      add_homework
        (fun i => mkHomework i (py "Chemistry lab") (py "Science")
                    (Some (py "Write the lab report"))
                    (now + timedelta_days 1)%Z (Some (py "#2d9cdb"))
                    (Some now)) s in
    let '(r, s) :=
      add_resource_row
        (fun i => mkResource i (hw_id hw1) (Some (py "Video explanation"))
                    (Some (py "https://example.com/algebra-video"))
                    (Some now)) s in
    let '(t, s) :=
      add_thread
        (fun i => mkThread i (hw_id hw1) (py "Teacher A")
                    (py "Remember to show your steps.") (Some now)) s in
    mkResult s [] (Body SeededSampleData).

(** ** Vocabulary of the properties *)

(** A string with no character other than whitespace; the empty string is
    one. *)
Definition whitespace_only (s : pystr) : Prop :=
  Forall (fun c => is_space c = true) s.

(** Ascending order of due dates. *)
Definition due_le (a b : Homework) : Prop := (due_date a <= due_date b)%Z.

(** Every Submission row references a Homework row of the store. *)
Definition submissions_reference_homework (s : Store) : Prop :=
  Forall (fun sub => is_Some (get_homework s (homework_id sub)))
    (submissions s).

(** The number of Homework rows with a subject. *)
Definition homework_with_subject (subj : pystr) (s : Store) : nat :=
  length (filter (fun hw => subject hw = subj) (homeworks s)).

(** The number of Submission rows whose Homework has a subject. *)
Definition submissions_with_subject (subj : pystr) (s : Store) : nat :=
  length
    (filter (fun sub => subject <$> get_homework s (homework_id sub) = Some subj)
       (submissions s)).

(** The bucket of a subject, all zero while the subject has none. *)
Definition bucket_of (o : option Bucket) : Bucket := default (mkBucket 0 0) o.

(** One request to the application. *)
Inductive Call :=
| call_index
| call_create_homework (req : Request)
| call_homework_detail (hid : nat) (req : Request)
| call_add_resource (hid : nat) (req : Request)
| call_submit_homework (hid : nat) (req : Request)
| call_dashboard
| call_seed.

(** The routes of [register_routes] that read or write the database. *)
Definition dispatch (fromisoformat : pystr -> option datetime)
    (now : datetime) (c : Call) (s : Store) : Result :=
  match c with
  | call_index => index now s
  | call_create_homework req => create_homework fromisoformat now req s
  | call_homework_detail hid req => homework_detail now hid req s
  | call_add_resource hid req => add_resource now hid req s
  | call_submit_homework hid req => submit_homework now hid req s
  | call_dashboard => dashboard now s
  | call_seed => seed now s
  end.

(** The store after a sequence of requests, each with its clock reading. *)
Definition run (fromisoformat : pystr -> option datetime)
    (calls : list (datetime * Call)) (s : Store) : Store :=
  fold_left (fun s c => store (dispatch fromisoformat c.1 c.2 s)) calls s.

(** ** Concrete stores and requests *)

Definition worksheet : Homework :=
  mkHomework 1 (py "Worksheet") (py "Math") None 1000%Z
    (Some (py "#2d9cdb")) (Some 0%Z).

Definition essay : Homework :=
  mkHomework 2 (py "Essay") (py "English") None 2000%Z
    (Some (py "#ffd93d")) (Some 0%Z).

(** One Homework row and nothing else. *)
Definition one_homework : Store := mkStore [] [worksheet] [] [] [].

(** A submit request for "Alice" with empty content. *)
Definition alice_blank : Request :=
  mkRequest POST {[ py "student_name" := py "Alice"; py "content" := [] ]}.

(** A parser for the examples: it knows one timestamp, 2030-01-01 09:00,
    and rejects every other string. *)
Definition sample_fromisoformat (raw : pystr) : option datetime :=
  if decide (raw = py "2030-01-01T09:00") then Some 1893488400000000%Z
  else None.

(** A create request whose due date is not a timestamp. *)
Definition due_tomorrow : Request :=
  mkRequest POST
    {[ py "title" := py "Worksheet"; py "subject" := py "Math";
       py "due_date" := py "tomorrow" ]}.

(** A create request with a due date and no color. *)
Definition due_2030 : Request :=
  mkRequest POST
    {[ py "title" := py "Worksheet"; py "subject" := py "Math";
       py "due_date" := py "2030-01-01T09:00" ]}.

(** Math without submissions; English with two, one graded 90. *)
Definition scenario : Store :=
  mkStore [mkUser 1 (py "Student") (Some false)] [worksheet; essay] [] []
    [mkSubmission 1 2 1 (Some (py "draft")) (Some 10%Z) (Some 90%float) None;
     mkSubmission 2 2 1 (Some (py "final")) (Some 20%Z) None None].

(** One Homework with three submissions, two of them graded. *)
Definition three_submissions : Store :=
  mkStore [mkUser 1 (py "Student") (Some false)] [worksheet] [] []
    [mkSubmission 1 1 1 (Some (py "a")) (Some 10%Z) (Some 80%float) None;
     mkSubmission 2 1 1 (Some (py "b")) (Some 20%Z) None None;
     mkSubmission 3 1 1 (Some (py "c")) (Some 30%Z) (Some 90%float) None].

(** A store the handlers themselves produce: seed, then two submissions to
    the first homework. *)
Definition seeded_with_submissions : Store :=
  run sample_fromisoformat
    [(0%Z, call_seed);
     (1%Z, call_submit_homework 1
             (mkRequest POST {[ py "content" := py "first" ]}));
     (2%Z, call_submit_homework 1
             (mkRequest POST {[ py "student_name" := py "Alice";
                                py "content" := py "second" ]}))]
    empty_store.

(** A comment with spaces around it, and no author. *)
Definition padded_comment : Request :=
  mkRequest POST {[ py "message" := py "  due when?  " ]}.

(** A resource with a url and no title. *)
Definition video_link : Request :=
  mkRequest POST {[ py "url" := py "https://example.com/v" ]}.

(** A submission without a student name. *)
Definition nameless : Request :=
  mkRequest POST {[ py "content" := py "my answer" ]}.

(** ** Calendar *)

(** One entry of the JSON array of [api_homeworks]. *)
Record Event := mkEvent {
  event_id : nat;
  event_title : pystr;
  event_start : pystr;
  event_url : pystr;
  event_color : option pystr
}.

(** [str(n)] of a non-negative integer: its decimal digits. *)
Definition str_of_nat (n : nat) : pystr := py (pretty n).

(** [url_for("homework_detail", hw_id=i)], by the rule
    [/homework/<int:hw_id>]. *)
Definition url_for_homework_detail (i : nat) : pystr :=
  py "/homework/" ++ str_of_nat i.

Section Calendar.

(** [datetime.isoformat]. *)
Variable isoformat : datetime -> pystr.

Definition event_of (hw : Homework) : Event :=
  mkEvent (hw_id hw) (subject hw ++ py ": " ++ title hw)
    (isoformat (due_date hw)) (url_for_homework_detail (hw_id hw))
    (color hw).

(** The events [api_homeworks] passes to [jsonify]. *)
Definition api_homeworks (s : Store) : list Event :=
  map event_of (homeworks s).

End Calendar.

(** ** Writes *)

(** One committed insert, as the handlers perform them: the row takes the
    next id of its table, and carries what the handler checked before
    adding it. *)
Inductive Write (s : Store) : Store -> Prop :=
| write_user (u : User) :
    user_id u = next_id (map user_id (users s)) ->
    first_user_by_name s (user_name u) = None ->
    user_name u <> [] ->
    is_teacher u = Some false ->
    Write s (mkStore (users s ++ [u]) (homeworks s) (threads s) (resources s)
               (submissions s))
| write_homework (hw : Homework) :
    hw_id hw = next_id (map hw_id (homeworks s)) ->
    (exists c, color hw = Some c /\ c <> []) ->
    Write s (mkStore (users s) (homeworks s ++ [hw]) (threads s) (resources s)
               (submissions s))
| write_thread (t : Thread) :
    thread_id t = next_id (map thread_id (threads s)) ->
    is_Some (get_homework s (thread_homework_id t)) ->
    author t <> [] ->
    message t <> [] ->
    strip (message t) = message t ->
    Write s (mkStore (users s) (homeworks s) (threads s ++ [t]) (resources s)
               (submissions s))
| write_resource (r : Resource) :
    resource_id r = next_id (map resource_id (resources s)) ->
    is_Some (get_homework s (resource_homework_id r)) ->
    (exists u, url r = Some u /\ u <> []) ->
    Write s (mkStore (users s) (homeworks s) (threads s) (resources s ++ [r])
               (submissions s))
| write_submission (sub : Submission) (u : User) :
    submission_id sub = next_id (map submission_id (submissions s)) ->
    is_Some (get_homework s (homework_id sub)) ->
    u ∈ users s ->
    student_id sub = user_id u ->
    (exists c, content sub = Some c /\ c <> []) ->
    grade sub = None ->
    feedback sub = None ->
    Write s (mkStore (users s) (homeworks s) (threads s) (resources s)
               (submissions s ++ [sub])).

(** ** Invariants of the store *)

(** Primary keys: no two rows of a table share an id. *)
Definition ids_unique (s : Store) : Prop :=
  NoDup (map user_id (users s)) /\
  NoDup (map hw_id (homeworks s)) /\
  NoDup (map thread_id (threads s)) /\
  NoDup (map resource_id (resources s)) /\
  NoDup (map submission_id (submissions s)).

(** Foreign keys: every Thread, Resource and Submission row names a
    Homework row, and every Submission row a User row. *)
Definition references_exist (s : Store) : Prop :=
  Forall (fun t => is_Some (get_homework s (thread_homework_id t)))
    (threads s) /\
  Forall (fun r => is_Some (get_homework s (resource_homework_id r)))
    (resources s) /\
  Forall (fun sub =>
            is_Some (get_homework s (homework_id sub)) /\
            exists u, u ∈ users s /\ user_id u = student_id sub)
    (submissions s).

(** No two User rows share a name. *)
Definition user_names_unique (s : Store) : Prop :=
  NoDup (map user_name (users s)).

(** No Submission row has a grade or feedback. *)
Definition ungraded (s : Store) : Prop :=
  Forall (fun sub => grade sub = None /\ feedback sub = None) (submissions s).

(** What the handlers check before they store a row. *)
Definition rows_checked (s : Store) : Prop :=
  Forall (fun u => user_name u <> [] /\ is_teacher u = Some false) (users s) /\
  Forall (fun hw => exists c, color hw = Some c /\ c <> []) (homeworks s) /\
  Forall (fun t => author t <> [] /\ message t <> [] /\
                   strip (message t) = message t) (threads s) /\
  Forall (fun r => exists u, url r = Some u /\ u <> []) (resources s) /\
  Forall (fun sub => exists c, content sub = Some c /\ c <> [])
    (submissions s).

(** Every table of [s] is the beginning of the same table of [s']: no row
    was deleted, changed or moved. *)
Definition rows_kept (s s' : Store) : Prop :=
  users s `prefix_of` users s' /\
  homeworks s `prefix_of` homeworks s' /\
  threads s `prefix_of` threads s' /\
  resources s `prefix_of` resources s' /\
  submissions s `prefix_of` submissions s'.

(** The three Homework rows of the seed route, as an empty table numbers
    them. *)
Definition seed_algebra (now : datetime) : Homework :=
  mkHomework 1 (py "Algebra worksheet") (py "Math")
    (Some (py "Exercises 1-10")) (now + timedelta_days 3)%Z
    (Some (py "#ff6b6b")) (Some now).

Definition seed_essay (now : datetime) : Homework :=
  mkHomework 2 (py "Short essay") (py "English")
    (Some (py "Topic: Climate")) (now + timedelta_days 7)%Z
    (Some (py "#ffd93d")) (Some now).

Definition seed_chemistry (now : datetime) : Homework :=
  mkHomework 3 (py "Chemistry lab") (py "Science")
    (Some (py "Write the lab report")) (now + timedelta_days 1)%Z
    (Some (py "#2d9cdb")) (Some now).

(** Sums of the two counters over the buckets of the dashboard. *)
Definition sum_total (m : gmap pystr Bucket) : nat :=
  map_fold (fun _ b acc => bucket_total b + acc) 0 m.

Definition sum_submitted (m : gmap pystr Bucket) : nat :=
  map_fold (fun _ b acc => bucket_submitted b + acc) 0 m.

(** ** More concrete stores and requests *)

(** Seed, then two submissions to the first homework and a comment. *)
Definition sample_calls : list (datetime * Call) :=
  [(0%Z, call_seed);
   (1%Z, call_submit_homework 1
           (mkRequest POST {[ py "content" := py "first" ]}));
   (2%Z, call_submit_homework 1
           (mkRequest POST {[ py "student_name" := py "Alice";
                              py "content" := py "second" ]}));
   (3%Z, call_homework_detail 2
           (mkRequest POST {[ py "message" := py " when? " ]}))].

(** A formatter for the examples, the converse of [sample_fromisoformat]. *)
Definition sample_isoformat (d : datetime) : pystr :=
  if decide (d = 1893488400000000%Z) then py "2030-01-01T09:00:00" else [].

(** A create request without a title. *)
Definition untitled : Request :=
  mkRequest POST
    {[ py "subject" := py "Math"; py "due_date" := py "2030-01-01T09:00" ]}.

(** A plain GET. *)
Definition get_request : Request := mkRequest GET ∅.

(** A Submission row whose Homework row is missing. *)
Definition dangling_submission : Submission :=
  mkSubmission 1 9 1 (Some (py "lost")) (Some 10%Z) None None.

Definition dangling : Store :=
  mkStore [mkUser 1 (py "Student") (Some false)] [worksheet] [] []
    [dangling_submission].

(** ** Exact values *)

Abbreviation rational := QArith_base.Q.

(** The number a float stands for; infinities and NaN stand for none. *)
Definition float_value (f : float) : option rational :=
  match Prim2SF f with
  | S754_zero _ => Some (QArith_base.inject_Z 0)
  | S754_finite sign m e =>
      Some (QArith_base.Qmult
              (QArith_base.inject_Z (if sign then Zneg m else Zpos m))
              (QArith_base.Qpower (QArith_base.inject_Z 2) e))
  | _ => None
  end.

(** The arithmetic mean of a list of numbers: their sum over their count. *)
Definition exact_mean (qs : list rational) : rational :=
  QArith_base.Qdiv (foldr QArith_base.Qplus (QArith_base.inject_Z 0) qs)
    (QArith_base.inject_Z (Z.of_nat (length qs))).

(** [r] is the arithmetic mean of [gs]: a number, equal to the mean of the
    numbers [gs] stand for. *)
Definition is_arithmetic_mean (gs : list float) (r : float) : Prop :=
  exists q qs,
    float_value r = Some q /\
    mapM float_value gs = Some qs /\
    QArith_base.Qeq q (exact_mean qs).



(** A Homework row under another [created_at] stamp. *)
Definition restamp (c : option datetime) (hw : Homework) : Homework :=
  mkHomework (hw_id hw) (title hw) (subject hw) (description hw)
    (due_date hw) (color hw) c.

(** * Properties *)

(** Unfold a handler down to its case analysis. *)
Ltac unfold_handler :=
  unfold index, create_homework, homework_detail, add_resource,
    submit_homework, dashboard, seed, add_user, add_homework, add_thread,
    add_resource_row, add_submission in *; simpl in *.

Ltac same_homeworks := exists []; by rewrite app_nil_r.

(** ** Strings *)

Lemma lstrip_nil (s : pystr) : lstrip s = [] <-> whitespace_only s.
Proof.
  unfold whitespace_only. induction s as [|c s IH]; simpl.
  - split; [constructor | reflexivity].
  - destruct (is_space c) eqn:Hc.
    + rewrite IH. split; [by constructor | by inversion 1].
    + split; [discriminate | inversion 1; congruence].
Qed.

Lemma lstrip_head (s : pystr) (c : N) (t : pystr) :
  lstrip s = c :: t -> is_space c = false.
Proof.
  induction s as [|d s IH]; simpl; [discriminate |].
  destruct (is_space d) eqn:Hd; [exact IH | congruence].
Qed.

Lemma lstrip_split (s : pystr) :
  exists pre, s = pre ++ lstrip s /\ whitespace_only pre.
Proof.
  induction s as [|c s (pre & Hs & Hpre)]; simpl.
  - exists []. split; [reflexivity | constructor].
  - destruct (is_space c) eqn:Hc.
    + exists (c :: pre). split; [simpl; congruence | by constructor].
    + exists []. split; [reflexivity | constructor].
Qed.

(** [strip] yields the empty string exactly on the strings made of
    whitespace only (the empty string among them). *)
Lemma strip_nil (s : pystr) : strip s = [] <-> whitespace_only s.
Proof.
  unfold strip, rstrip. split.
  - intros H. apply (f_equal (@rev N)) in H. rewrite rev_involutive in H.
    simpl in H. apply lstrip_nil in H.
    destruct (lstrip s) as [|c t] eqn:E; [by apply lstrip_nil |].
    apply lstrip_head in E. unfold whitespace_only in H.
    rewrite Forall_forall in H. specialize (H c).
    rewrite H in E; [discriminate |].
    apply list_elem_of_In, in_rev. rewrite rev_involutive. by left.
  - intros H. apply lstrip_nil in H. by rewrite H.
Qed.

(** [strip] removes a whitespace prefix and a whitespace suffix, and what
    is left neither starts nor ends with whitespace. *)
Lemma strip_split (s : pystr) :
  exists pre post,
    s = pre ++ strip s ++ post /\ whitespace_only pre /\ whitespace_only post.
Proof.
  destruct (lstrip_split s) as (pre & Hs & Hpre).
  destruct (lstrip_split (rev (lstrip s))) as (post & Hr & Hpost).
  exists pre, (rev post). repeat split; [| done |].
  - unfold strip, rstrip. rewrite <- rev_app_distr, <- Hr, rev_involutive.
    exact Hs.
  - unfold whitespace_only in *. rewrite Forall_forall in *.
    intros c Hc. apply Hpost. apply list_elem_of_In. apply list_elem_of_In in Hc.
    by apply in_rev in Hc.
Qed.

Lemma strip_ends (s : pystr) :
  (forall c t, strip s = c :: t -> is_space c = false) /\
  (forall c t, strip s = t ++ [c] -> is_space c = false).
Proof.
  unfold strip, rstrip. split; intros c t H.
  - destruct (lstrip_split (rev (lstrip s))) as (pre & Hr & _).
    apply (f_equal (@rev N)) in Hr.
    rewrite rev_involutive, rev_app_distr, H in Hr.
    by apply (lstrip_head s c (t ++ rev pre)).
  - apply (f_equal (@rev N)) in H. rewrite rev_involutive, rev_app_distr in H.
    simpl in H. by apply lstrip_head in H.
Qed.

(** ** The upcoming list *)

Lemma insert_by_due_date_perm (hw : Homework) (l : list Homework) :
  insert_by_due_date hw l ≡ₚ hw :: l.
Proof.
  induction l as [|x l IH]; simpl; [done |].
  destruct (due_date hw <=? due_date x)%Z; [done |].
  by rewrite IH, Permutation_swap.
Qed.

Lemma order_by_due_date_perm (l : list Homework) : order_by_due_date l ≡ₚ l.
Proof.
  induction l as [|x l IH]; simpl; [done |].
  by rewrite insert_by_due_date_perm, IH.
Qed.

Lemma insert_by_due_date_sorted (hw : Homework) (l : list Homework) :
  StronglySorted due_le l -> StronglySorted due_le (insert_by_due_date hw l).
Proof.
  induction 1 as [|x l Hl IH Hx]; simpl.
  - repeat constructor.
  - destruct (due_date hw <=? due_date x)%Z eqn:E.
    + apply Z.leb_le in E. constructor; [by constructor |].
      constructor; [exact E |].
      eapply Forall_impl; [exact Hx |]. unfold due_le. intros; simpl in *; lia.
    + apply Z.leb_gt in E. constructor; [exact IH |].
      rewrite insert_by_due_date_perm. constructor; [unfold due_le; lia | done].
Qed.

Lemma order_by_due_date_sorted (l : list Homework) :
  StronglySorted due_le (order_by_due_date l).
Proof.
  induction l as [|x l IH]; simpl; [constructor |].
  by apply insert_by_due_date_sorted.
Qed.

Lemma StronglySorted_take {A} (R : A -> A -> Prop) (n : nat) (l : list A) :
  StronglySorted R l -> StronglySorted R (take n l).
Proof.
  intros H. revert n. induction H as [|x l Hl IH Hx]; intros [|n]; simpl;
    try constructor; [apply IH |].
  eapply Forall_forall. intros y Hy. rewrite Forall_forall in Hx.
  apply Hx. by eapply (subseteq_take n l).
Qed.

(** C6. The upcoming list for [now] and [limit] holds only Homework rows of
    the store that are due at [now] or later, is in ascending order of due
    date, and has at most [limit] rows; the homepage asks for 10. *)
Theorem upcoming_homework_spec (now : datetime) (limit : nat) (s : Store) :
  Forall (fun hw => hw ∈ homeworks s /\ (now <= due_date hw)%Z)
    (upcoming_homework now limit s) /\
  StronglySorted due_le (upcoming_homework now limit s) /\
  length (upcoming_homework now limit s) <= limit /\
  response (index now s) = IndexPage (upcoming_homework now 10 s).
Proof.
  unfold upcoming_homework. repeat split.
  - apply Forall_forall. intros hw Hhw.
    apply (subseteq_take limit) in Hhw.
    rewrite order_by_due_date_perm in Hhw.
    by apply list_elem_of_filter in Hhw as [? ?].
  - apply StronglySorted_take, order_by_due_date_sorted.
  - rewrite length_take. lia.
Qed.

(** X21. The rows the limit cuts off are due no earlier than the rows
    returned: the list is the head of the upcoming rows by due date. *)
Lemma upcoming_homework_earliest (now : datetime) (limit : nat) (s : Store)
    (hw hw' : Homework) :
  hw ∈ upcoming_homework now limit s ->
  hw' ∈ homeworks s -> (now <= due_date hw')%Z ->
  hw' ∉ upcoming_homework now limit s ->
  due_le hw hw'.
Proof.
  unfold upcoming_homework.
  set (l := order_by_due_date (filter _ (homeworks s))).
  intros Hin Hhw' Hdue Hout.
  assert (hw' ∈ l) as Hl.
  { subst l. rewrite order_by_due_date_perm. by apply list_elem_of_filter. }
  rewrite <- (take_drop limit l) in Hl. apply elem_of_app in Hl as [? | Hd];
    [done |].
  apply (StronglySorted_app_1_elem_of due_le (take limit l) (drop limit l));
    [|done | done].
  rewrite take_drop. apply order_by_due_date_sorted.
Qed.

(** ** The store invariant *)

Lemma get_homework_elem_of (s : Store) (i : nat) (hw : Homework) :
  get_homework s i = Some hw -> hw ∈ homeworks s /\ hw_id hw = i.
Proof.
  unfold get_homework. intros H. apply find_some in H as [Hin Hid].
  split; [by apply list_elem_of_In | by apply Nat.eqb_eq].
Qed.

(** ** The subject breakdown *)

Lemma count_homework_lookup (m : gmap pystr Bucket) (hw : Homework)
    (subj : pystr) :
  count_homework m hw !! subj =
    if decide (subject hw = subj)
    then Some (mkBucket (S (bucket_total (bucket_of (m !! subj))))
                 (bucket_submitted (bucket_of (m !! subj))))
    else m !! subj.
Proof.
  unfold count_homework, setdefault. case_decide as E.
  - subst subj. destruct (m !! subject hw) as [b|] eqn:Hm.
    + by rewrite lookup_alter_eq, Hm.
    + by rewrite lookup_alter_eq, lookup_insert_eq.
  - destruct (m !! subject hw) eqn:Hm.
    + by rewrite lookup_alter_ne.
    + by rewrite lookup_alter_ne, lookup_insert_ne.
Qed.

Lemma first_loop_lookup (l : list Homework) (m : gmap pystr Bucket)
    (subj : pystr) :
  fold_left count_homework l m !! subj =
    match length (filter (fun hw => subject hw = subj) l) with
    | 0 => m !! subj
    | S n => Some (mkBucket (S n + bucket_total (bucket_of (m !! subj)))
                     (bucket_submitted (bucket_of (m !! subj))))
    end.
Proof.
  revert m. induction l as [|hw l IH]; intros m; simpl; [done |].
  rewrite IH, count_homework_lookup, filter_cons.
  case_decide as E; simpl.
  - destruct (length _); simpl; [done |]. do 2 f_equal. lia.
  - done.
Qed.

Lemma second_loop_lookup (s : Store) (subs : list Submission)
    (m : gmap pystr Bucket) :
  Forall (fun sub => exists hw, get_homework s (homework_id sub) = Some hw /\
                                is_Some (m !! subject hw)) subs ->
  exists m',
    count_submissions s m subs = inr m' /\
    forall subj,
      m' !! subj =
        (fun b =>
           mkBucket (bucket_total b)
             (bucket_submitted b +
              length (filter (fun sub =>
                        subject <$> get_homework s (homework_id sub) = Some subj)
                        subs)))
        <$> m !! subj.
Proof.
  revert m. induction subs as [|sub subs IH]; intros m Hall; simpl.
  - exists m. split; [done |]. intros subj.
    destruct (m !! subj) as [[t k]|]; simpl; [|done].
    do 2 f_equal. lia.
  - inversion Hall as [|? ? (hw & Hhw & [b Hb]) Hrest]; subst.
    unfold count_submission. rewrite Hhw, Hb.
    destruct (IH (<[subject hw := mkBucket (bucket_total b)
                                   (S (bucket_submitted b))]> m))
      as (m' & Hrun & Hm').
    { eapply Forall_impl; [exact Hrest |]. intros sub' (hw' & ? & Hsome).
      exists hw'. split; [done |].
      rewrite lookup_insert. case_decide; [by eexists | done]. }
    exists m'. split; [exact Hrun |]. intros subj.
    rewrite Hm', filter_cons, Hhw, lookup_insert. simpl.
    destruct (decide (subject hw = subj)) as [<-|Hne].
    + rewrite decide_True by done. rewrite Hb. simpl. do 2 f_equal. lia.
    + rewrite decide_False by congruence. done.
Qed.

(** Under the store invariant the two loops finish, and each bucket holds
    the two counts of its subject. *)
Lemma subject_breakdown_lookup (s : Store) :
  submissions_reference_homework s ->
  exists m,
    subject_breakdown s = inr m /\
    forall subj,
      m !! subj =
        match homework_with_subject subj s with
        | 0 => None
        | S n => Some (mkBucket (S n) (submissions_with_subject subj s))
        end.
Proof.
  intros Hinv. unfold subject_breakdown.
  destruct (second_loop_lookup s (submissions s)
              (fold_left count_homework (homeworks s) ∅)) as (m & Hrun & Hm).
  { eapply Forall_impl; [exact Hinv |]. intros sub [hw Hhw].
    exists hw. split; [done |].
    apply get_homework_elem_of in Hhw as [Hin _].
    rewrite first_loop_lookup.
    destruct (length _) eqn:E; [|by eexists].
    apply length_zero_iff_nil in E.
    assert (hw ∈ filter (fun hw0 => subject hw0 = subject hw) (homeworks s))
      as Hf by (by apply list_elem_of_filter).
    rewrite E in Hf. by apply not_elem_of_nil in Hf. }
  exists m. split; [exact Hrun |]. intros subj.
  rewrite Hm, first_loop_lookup, lookup_empty.
  unfold homework_with_subject, submissions_with_subject.
  destruct (length (filter _ (homeworks s))); simpl; [done |].
  do 2 f_equal. lia.
Qed.

(** Without the invariant the second loop stops at the first submission
    whose Homework is missing: the dashboard is a page exactly on the stores
    with the invariant. *)
Lemma second_loop_raises (s : Store) (subs : list Submission)
    (m : gmap pystr Bucket) :
  (forall hw, hw ∈ homeworks s -> is_Some (m !! subject hw)) ->
  Exists (fun sub => get_homework s (homework_id sub) = None) subs ->
  count_submissions s m subs = inl AttributeError.
Proof.
  revert m. induction subs as [|sub subs IH]; intros m Hm Hex; simpl.
  - inversion Hex.
  - unfold count_submission.
    destruct (get_homework s (homework_id sub)) as [hw|] eqn:Hhw; [|done].
    pose proof (get_homework_elem_of _ _ _ Hhw) as [Hin _].
    destruct (Hm hw Hin) as [b Hb]. rewrite Hb. apply IH.
    + intros hw' Hin'. rewrite lookup_insert. case_decide; [by eexists | auto].
    + inversion Hex as [? ? Hnone | ]; subst; [congruence | done].
Qed.

Lemma subject_breakdown_raises (s : Store) :
  ~ submissions_reference_homework s ->
  subject_breakdown s = inl AttributeError.
Proof.
  intros Hinv. unfold subject_breakdown. apply second_loop_raises.
  - intros hw Hin. rewrite first_loop_lookup.
    destruct (length _) eqn:E; [|by eexists].
    apply length_zero_iff_nil in E.
    assert (hw ∈ filter (fun hw0 => subject hw0 = subject hw) (homeworks s))
      as Hf by (by apply list_elem_of_filter).
    rewrite E in Hf. by apply not_elem_of_nil in Hf.
  - apply not_Forall_Exists in Hinv; [|apply _].
    eapply Exists_impl; [exact Hinv |]. simpl. intros sub Hsub.
    destruct (get_homework s (homework_id sub)); [|done].
    destruct Hsub. by eexists.
Qed.

(** ** Reachable stores *)

Lemma get_homework_app (s s' : Store) (hs : list Homework) (i : nat) :
  homeworks s' = homeworks s ++ hs ->
  is_Some (get_homework s i) -> is_Some (get_homework s' i).
Proof.
  unfold get_homework. intros -> [hw H].
  exists hw. induction (homeworks s) as [|x l IH]; simpl in *; [discriminate |].
  destruct (hw_id x =? i); [done | by apply IH].
Qed.

Lemma invariant_step (s s' : Store) :
  (exists hs, homeworks s' = homeworks s ++ hs) ->
  (submissions s' = submissions s \/
   exists sub, submissions s' = submissions s ++ [sub] /\
               is_Some (get_homework s (homework_id sub))) ->
  submissions_reference_homework s -> submissions_reference_homework s'.
Proof.
  unfold submissions_reference_homework. intros [hs Hhs] Hsubs Hinv.
  assert (Forall (fun sub => is_Some (get_homework s' (homework_id sub)))
            (submissions s)) as Hold.
  { eapply Forall_impl; [exact Hinv |]. intros sub.
    by apply get_homework_app with (hs := hs). }
  destruct Hsubs as [-> | (sub & -> & Hsub)]; [done |].
  apply Forall_app. split; [done |]. constructor; [|constructor].
  by apply get_homework_app with (s := s) (hs := hs).
Qed.

Lemma dispatch_step (fromisoformat : pystr -> option datetime)
    (now : datetime) (c : Call) (s : Store) :
  let s' := store (dispatch fromisoformat now c s) in
  (exists hs, homeworks s' = homeworks s ++ hs) /\
  (submissions s' = submissions s \/
   exists sub, submissions s' = submissions s ++ [sub] /\
               is_Some (get_homework s (homework_id sub))).
Proof.
  destruct c as [|req|hid req|hid req|hid req| |]; simpl.
  - split; [same_homeworks | by left].
  - unfold_handler.
    repeat case_match; simpl;
      (split; [first [same_homeworks | by eexists] | by left]).
  - unfold_handler.
    repeat case_match; simpl; (split; [same_homeworks | by left]).
  - unfold_handler.
    repeat case_match; simpl; (split; [same_homeworks | by left]).
  - unfold_handler.
    destruct (get_homework s hid) as [hw|] eqn:Hhw; simpl;
      [|split; [same_homeworks | by left]].
    apply get_homework_elem_of in Hhw as Hid. destruct Hid as [_ Hid].
    destruct (first_user_by_name s _) as [u|]; simpl;
      destruct (falsy _); simpl; (split; [same_homeworks |]);
      try (by left); right; eexists; (split; [reflexivity |]); simpl;
      rewrite Hid; by eexists.
  - unfold_handler. case_match; simpl; (split; [same_homeworks | by left]).
  - unfold_handler. case_match; simpl;
      (split; [first [same_homeworks | rewrite <- !app_assoc; by eexists]
              | by left]).
Qed.

(** After any sequence of requests on the empty database, every Submission
    row references a Homework row. *)
Lemma run_invariant (fromisoformat : pystr -> option datetime)
    (calls : list (datetime * Call)) (s : Store) :
  submissions_reference_homework s ->
  submissions_reference_homework (run fromisoformat calls s).
Proof.
  revert s. induction calls as [|[now c] calls IH]; intros s Hinv; simpl;
    [done |].
  apply IH. destruct (dispatch_step fromisoformat now c s) as [Hh Hs].
  by eapply invariant_step.
Qed.

Lemma empty_store_invariant : submissions_reference_homework empty_store.
Proof. constructor. Qed.

(** ** Dashboard statistics *)

Lemma dashboard_response (now : datetime) (s : Store) :
  submissions_reference_homework s ->
  exists m,
    subject_breakdown s = inr m /\
    response (dashboard now s) =
      DashboardPage
        (mkDashboard (length (homeworks s))
           (length (filter (fun hw => (now <= due_date hw)%Z) (homeworks s)))
           (completed_count s) (average (graded s)) m).
Proof.
  intros Hinv. destruct (subject_breakdown_lookup s Hinv) as (m & Hm & _).
  exists m. split; [done |]. unfold dashboard. by rewrite Hm.
Qed.

(** The dashboard answers with its page exactly on the stores with the
    invariant; on the others it stops on the [AttributeError]. *)
Lemma dashboard_page_iff (now : datetime) (s : Store) :
  (exists ctx, response (dashboard now s) = DashboardPage ctx) <->
  submissions_reference_homework s.
Proof.
  split.
  - intros [ctx Hctx].
    destruct (decide (submissions_reference_homework s)) as [|Hn]; [done |].
    unfold dashboard in Hctx.
    by rewrite (subject_breakdown_raises s Hn) in Hctx.
  - intros Hinv. destruct (dashboard_response now s Hinv) as (m & _ & Hr).
    by eexists.
Qed.

Lemma length_remove_dups (l : list nat) :
  length (remove_dups l) = size (list_to_set l : gset nat).
Proof.
  rewrite <- (size_list_to_set (C := gset nat) (remove_dups l))
    by apply NoDup_remove_dups.
  f_equal. apply set_eq. intros x.
  by rewrite !elem_of_list_to_set, elem_of_remove_dups.
Qed.

Lemma graded_omap (s : Store) : graded s = omap grade (submissions s).
Proof.
  unfold graded. induction (submissions s) as [|sub l IH]; [done |].
  rewrite filter_cons. case_decide as H.
  - change (omap grade (sub :: ?k)) with
      (match grade sub with Some g => g :: omap grade k | None => omap grade k end).
    by rewrite IH.
  - change (omap grade (sub :: l)) with
      (match grade sub with Some g => g :: omap grade l | None => omap grade l end).
    destruct (grade sub); [discriminate | exact IH].
Qed.

Lemma average_None (grades : list float) : average grades = None <-> grades = [].
Proof. destruct grades; simpl; split; congruence. Qed.

Lemma omap_grade_nil (l : list Submission) :
  omap grade l = [] <-> Forall (fun sub => grade sub = None) l.
Proof.
  induction l as [|sub l IH]; simpl.
  - split; [constructor | done].
  - destruct (grade sub) eqn:E; simpl.
    + split; [discriminate | inversion 1; congruence].
    + rewrite IH. split; [by constructor | by inversion 1].
Qed.

(** [completed] reads the [homework_id] column only, so grading a
    submission does not change it. *)
Lemma completed_count_ignores_grades (s s' : Store) :
  map homework_id (submissions s) = map homework_id (submissions s') ->
  completed_count s = completed_count s'.
Proof. unfold completed_count. by intros ->. Qed.

(** [avg_grade] reads the [grade] column only: the grades are not grouped
    by homework. *)
Lemma average_ignores_homework (s s' : Store) :
  map grade (submissions s) = map grade (submissions s') ->
  average (graded s) = average (graded s').
Proof.
  rewrite !graded_omap. intros H. f_equal.
  assert (forall l : list Submission, omap grade l = omap id (map grade l))
    as Hmap.
  { induction l as [|sub l IH]; [done |].
    change (omap grade (sub :: l)) with
      (match grade sub with Some g => g :: omap grade l | None => omap grade l
       end).
    rewrite IH. simpl. by destruct (grade sub). }
  by rewrite !Hmap, H.
Qed.

(** C2. On a store whose submissions reference existing homework, the
    dashboard's subject breakdown has a bucket exactly for the subjects of
    the Homework rows; its [total] is the number of Homework rows with the
    subject and its [submitted] the number of Submission rows whose Homework
    has the subject, one per submission. *)
Theorem dashboard_subject_breakdown (now : datetime) (s : Store) :
  submissions_reference_homework s ->
  exists ctx,
    response (dashboard now s) = DashboardPage ctx /\
    forall subj,
      subjects ctx !! subj =
        if decide (homework_with_subject subj s = 0) then None
        else Some (mkBucket (homework_with_subject subj s)
                     (submissions_with_subject subj s)).
Proof.
  intros Hinv. destruct (subject_breakdown_lookup s Hinv) as (m & Hm & Hlook).
  eexists. split; [unfold dashboard; by rewrite Hm |]. simpl.
  intros subj. rewrite Hlook.
  destruct (homework_with_subject subj s); by case_decide.
Qed.

(** C4. On such a store the dashboard's [total] is the number of Homework
    rows and its [completed] the number of distinct [homework_id] values of
    the Submission rows, whatever their grades. *)
Theorem dashboard_total_completed (now : datetime) (s : Store) :
  submissions_reference_homework s ->
  exists ctx,
    response (dashboard now s) = DashboardPage ctx /\
    total ctx = length (homeworks s) /\
    completed ctx =
      size (list_to_set (map homework_id (submissions s)) : gset nat).
Proof.
  intros Hinv. destruct (dashboard_response now s Hinv) as (m & _ & Hr).
  eexists. split; [exact Hr |]. simpl. split; [done |].
  apply length_remove_dups.
Qed.




(** ** Posting a thread message *)

(** C7. A POST to the detail view of an existing Homework redirects back to
    it without an error.  With a message that is absent, empty or made of
    whitespace only it changes nothing and flashes nothing; with any other
    message it adds exactly one Thread row, holding the trimmed message,
    whose author is "Anonymous" whenever the author field is absent or
    empty. *)
Theorem homework_detail_post (now : datetime) (hid : nat) (req : Request)
    (s : Store) (hw : Homework) :
  get_homework s hid = Some hw ->
  method req = POST ->
  let msg := default [] (form req !! py "message") in
  let r := homework_detail now hid req s in
  response r = Redirect (ep_homework_detail hid) /\
  (whitespace_only msg -> store r = s /\ flashes r = []) /\
  (strip msg <> [] ->
   exists t,
     store r = mkStore (users s) (homeworks s) (threads s ++ [t])
                 (resources s) (submissions s) /\
     thread_homework_id t = hw_id hw /\
     message t = strip msg /\
     author t = or_default (form req !! py "author") (py "Anonymous") /\
     (form req !! py "author" = None \/ form req !! py "author" = Some [] ->
      author t = py "Anonymous")).
Proof.
  intros Hhw Hpost msg r. subst r. unfold homework_detail.
  rewrite Hhw, Hpost. fold msg.
  destruct (strip msg) as [|c m] eqn:E; simpl.
  - split; [done |]. split; [done |]. intros H. by destruct H.
  - split; [done |]. split.
    + intros H. apply strip_nil in H. congruence.
    + intros _. eexists. split; [reflexivity |]. simpl.
      repeat split. by intros [-> | ->].
Qed.

(** ** Adding a resource *)

Lemma resources_grow (s : Store) (r : Resource) :
  mkStore (users s) (homeworks s) (threads s) (resources s ++ [r])
    (submissions s) <> s.
Proof.
  intros H. apply (f_equal (fun x => length (resources x))) in H.
  simpl in H. rewrite length_app in H. simpl in H. lia.
Qed.

(** C8. Adding a resource to an existing Homework redirects to its detail
    view without an error.  It leaves the store as it was exactly when the
    url field is absent or empty, and then flashes nothing; with any other
    url it adds exactly one Resource row, with that url. *)
Theorem add_resource_spec (now : datetime) (hid : nat) (req : Request)
    (s : Store) (hw : Homework) :
  get_homework s hid = Some hw ->
  let blank :=
    form req !! py "url" = None \/ form req !! py "url" = Some [] in
  let r := add_resource now hid req s in
  response r = Redirect (ep_homework_detail hid) /\
  (store r = s <-> blank) /\
  (blank -> flashes r = []) /\
  (forall u, form req !! py "url" = Some u -> u <> [] ->
   exists row,
     store r = mkStore (users s) (homeworks s) (threads s)
                 (resources s ++ [row]) (submissions s) /\
     url row = Some u /\
     resource_homework_id row = hw_id hw).
Proof.
  intros Hhw blank r. subst blank r. unfold add_resource. rewrite Hhw.
  destruct (form req !! py "url") as [[|c u]|] eqn:E; simpl.
  - repeat split; auto. intros u' [= <-] H. by destruct H.
  - split; [done |]. split; [|split].
    + split; [intros H; by apply resources_grow in H | by intros [? | ?]].
    + by intros [? | ?].
    + intros u' [= <-] _. eexists. by split.
  - repeat split; auto. intros u' H. discriminate H.
Qed.

(** ** Seeding *)

Lemma seed_already_seeded (now : datetime) (s : Store) :
  0 < length (homeworks s) -> seed now s = mkResult s [] (Body AlreadySeeded).
Proof.
  intros H. unfold seed. apply Nat.ltb_lt in H. by rewrite H.
Qed.

(** After the seed route the Homework table is not empty. *)
Lemma seed_homeworks (now : datetime) (s : Store) :
  0 < length (homeworks (store (seed now s))).
Proof.
  unfold seed. destruct (0 <? length (homeworks s)) eqn:E.
  - by apply Nat.ltb_lt in E.
  - cbv beta iota zeta delta [add_homework add_resource_row add_thread store
                               homeworks].
    rewrite !length_app. cbn [length]. lia.
Qed.

(** C9. Whatever the store, a second call of the seed route right after a
    first one writes nothing and answers with the status message; so does a
    first call on a store that already holds a Homework row. *)
Theorem seed_twice (now1 now2 : datetime) (s : Store) :
  seed now2 (store (seed now1 s)) =
    mkResult (store (seed now1 s)) [] (Body AlreadySeeded) /\
  (homeworks s <> [] -> seed now1 s = mkResult s [] (Body AlreadySeeded)).
Proof.
  split.
  - rewrite (seed_already_seeded now2); [done |].
    apply seed_homeworks.
  - intros H. apply seed_already_seeded.
    destruct (homeworks s); [by destruct H | simpl; lia].
Qed.

(** ** Submitting *)

Lemma first_user_by_name_found (s : Store) (n : pystr) (u : User) :
  first_user_by_name s n = Some u -> u ∈ users s /\ user_name u = n.
Proof.
  unfold first_user_by_name. intros H. apply find_some in H as [Hin Hn].
  split; [by apply list_elem_of_In | by apply bool_decide_eq_true in Hn].
Qed.

(** The student of a submit request: the first User row with the name, or a
    new row with it. *)
Lemma submit_homework_student (now : datetime) (hid : nat) (req : Request)
    (s : Store) (hw : Homework) :
  get_homework s hid = Some hw ->
  let name := or_default (form req !! py "student_name") (py "Student") in
  let r := submit_homework now hid req s in
  exists u,
    user_name u = name /\
    (first_user_by_name s name = Some u /\ users (store r) = users s \/
     first_user_by_name s name = None /\ users (store r) = users s ++ [u]) /\
    homeworks (store r) = homeworks s /\
    threads (store r) = threads s /\
    resources (store r) = resources s /\
    response r = Redirect (ep_homework_detail hid) /\
    match form req !! py "content" with
    | Some ((_ :: _) as c) =>
        exists sub,
          submissions (store r) = submissions s ++ [sub] /\
          student_id sub = user_id u /\
          homework_id sub = hw_id hw /\
          content sub = Some c /\
          flashes r = [(SubmittedSuccessfully, success)]
    | _ =>
        submissions (store r) = submissions s /\
        flashes r = [(SubmissionCannotBeEmpty, warning)]
    end.
Proof.
  intros Hhw name r. subst r. unfold submit_homework. rewrite Hhw.
  fold name. destruct (first_user_by_name s name) as [u|] eqn:Hu.
  - exists u. apply first_user_by_name_found in Hu as Hn.
    destruct Hn as [_ Hn].
    destruct (form req !! py "content") as [[|c k]|]; simpl;
      repeat split; auto; eexists; by repeat split.
  - unfold add_user.
    exists (mkUser (next_id (map user_id (users s))) name (Some false)).
    destruct (form req !! py "content") as [[|c k]|]; simpl;
      repeat split; auto; eexists; by repeat split.
Qed.

(** C10. A submit request on an existing Homework whose student_name field
    is absent or empty is answered like any other: the student is the first
    User row named "Student", or a new row of that name when there is none,
    and a submission with content is stored under that user's id. *)
Theorem submit_homework_default_student (now : datetime) (hid : nat)
    (req : Request) (s : Store) (hw : Homework) :
  get_homework s hid = Some hw ->
  form req !! py "student_name" = None \/
    form req !! py "student_name" = Some [] ->
  let r := submit_homework now hid req s in
  exists u,
    user_name u = py "Student" /\
    u ∈ users (store r) /\
    (first_user_by_name s (py "Student") = Some u /\
       users (store r) = users s \/
     first_user_by_name s (py "Student") = None /\
       users (store r) = users s ++ [u]) /\
    response r = Redirect (ep_homework_detail hid) /\
    forall c, form req !! py "content" = Some c -> c <> [] ->
      exists sub,
        submissions (store r) = submissions s ++ [sub] /\
        student_id sub = user_id u /\
        homework_id sub = hw_id hw /\
        content sub = Some c /\
        flashes r = [(SubmittedSuccessfully, success)].
Proof.
  intros Hhw Hname r.
  destruct (submit_homework_student now hid req s hw Hhw)
    as (u & Hu & Hfc & _ & _ & _ & Hresp & Hsub).
  assert (or_default (form req !! py "student_name") (py "Student")
          = py "Student") as Hdef by (by destruct Hname as [-> | ->]).
  rewrite Hdef in Hu, Hfc. exists u. subst r.
  split; [exact Hu |]. split; [|split; [exact Hfc |split; [exact Hresp |]]].
  - destruct Hfc as [[Hf ->] | [_ ->]].
    + by apply first_user_by_name_found in Hf as [? _].
    + apply elem_of_app. right. by apply list_elem_of_singleton.
  - intros c Hc Hne. rewrite Hc in Hsub. by destruct c.
Qed.

(** ** Blank submissions *)

(** A submit request without content stores no Submission row and flashes
    the warning; only the users table can change, and it does exactly when
    no User row has the student's name. *)
Lemma submit_homework_blank (now : datetime) (hid : nat) (req : Request)
    (s : Store) (hw : Homework) :
  get_homework s hid = Some hw ->
  form req !! py "content" = None \/ form req !! py "content" = Some [] ->
  let name := or_default (form req !! py "student_name") (py "Student") in
  let r := submit_homework now hid req s in
  submissions (store r) = submissions s /\
  flashes r = [(SubmissionCannotBeEmpty, warning)] /\
  response r = Redirect (ep_homework_detail hid) /\
  (store r = s <-> is_Some (first_user_by_name s name)).
Proof.
  intros Hhw Hc name r. subst r. unfold submit_homework. rewrite Hhw.
  fold name. destruct (first_user_by_name s name) as [u|] eqn:Hu;
    destruct Hc as [-> | ->]; simpl; repeat split; auto;
    try (by intros [? ?]);
    intros H; apply (f_equal (fun x => length (users x))) in H;
    simpl in H; rewrite length_app in H; simpl in H; lia.
Qed.

(** C1. On a store with one Homework and no User, a submit request for
    "Alice" with empty content flashes the warning and stores no Submission
    row, but it has already stored a User row for "Alice": the store is not
    left as it was. *)
Theorem submit_homework_blank_adds_user :
  let r := submit_homework 5%Z 1 alice_blank one_homework in
  flashes r = [(SubmissionCannotBeEmpty, warning)] /\
  submissions (store r) = [] /\
  users one_homework = [] /\
  users (store r) = [mkUser 1 (py "Alice") (Some false)] /\
  store r <> one_homework.
Proof.
  vm_compute. repeat split. discriminate.
Qed.

(** ** Creating homework *)

(** C3, as the claim has it, fails: a create request whose due date does not
    parse flashes no notice at all; the [ValueError] is not caught and the
    response is a server error. *)
Lemma create_homework_unparsed_no_notice :
  let r := create_homework sample_fromisoformat 0%Z due_tomorrow empty_store in
  sample_fromisoformat (py "tomorrow") = None /\
  ~ (exists notice, notice ∈ flashes r) /\
  response r = ServerError ValueError.
Proof.
  vm_compute. repeat split. intros [notice H]. inversion H.
Qed.

(** C3, amended.  A create request with title, subject and due date: when
    the due date does not parse, the handler stops on the uncaught
    [ValueError] with the store as it was and nothing flashed; when it
    parses, one Homework row is added, whose color is "#2d9cdb" when the
    color field is absent (or empty). *)
Theorem create_homework_spec (fromisoformat : pystr -> option datetime)
    (now : datetime) (req : Request) (s : Store) (ttl subj raw : pystr) :
  method req = POST ->
  form req !! py "title" = Some ttl ->
  form req !! py "subject" = Some subj ->
  form req !! py "due_date" = Some raw ->
  let r := create_homework fromisoformat now req s in
  (fromisoformat raw = None ->
   r = mkResult s [] (ServerError ValueError)) /\
  (forall due, fromisoformat raw = Some due ->
   exists hw,
     r = mkResult
           (mkStore (users s) (homeworks s ++ [hw]) (threads s) (resources s)
              (submissions s))
           [(HomeworkCreated, success)] (Redirect ep_index) /\
     title hw = ttl /\ subject hw = subj /\ due_date hw = due /\
     color hw = Some (or_default (form req !! py "color") (py "#2d9cdb")) /\
     (form req !! py "color" = None \/ form req !! py "color" = Some [] ->
      color hw = Some (py "#2d9cdb"))).
Proof.
  intros Hpost Ht Hs Hd r. subst r. unfold create_homework.
  rewrite Hpost, Ht, Hs, Hd. split.
  - by intros ->.
  - intros due ->. unfold add_homework. eexists. split; [reflexivity |]. simpl.
    repeat split. by intros [-> | ->].
Qed.

(** ** The scenario of the specification *)

Example dashboard_scenario :
  response (dashboard 1500%Z scenario) =
    DashboardPage
      (mkDashboard 2 1 1 (Some 90%float)
         {[ py "Math" := mkBucket 1 0; py "English" := mkBucket 1 2 ]}).
Proof. vm_compute. reflexivity. Qed.

Lemma scenario_invariant : submissions_reference_homework scenario.
Proof. repeat constructor; by eexists. Defined.

Lemma three_submissions_invariant :
  submissions_reference_homework three_submissions.
Proof. repeat constructor; by eexists. Defined.

Example seeded_with_submissions_dashboard :
  submissions_reference_homework seeded_with_submissions /\
  exists avg,
    response (dashboard 3%Z seeded_with_submissions) =
      DashboardPage
        (mkDashboard 3 3 1 avg
           {[ py "Math" := mkBucket 1 2; py "English" := mkBucket 1 0;
              py "Science" := mkBucket 1 0 ]}) /\
    avg = None.
Proof.
  split; [apply run_invariant, empty_store_invariant |].
  eexists. split; [vm_compute; reflexivity | reflexivity].
Qed.

Example submitted_exceeds_total :
  exists ctx,
    response (dashboard 0%Z three_submissions) = DashboardPage ctx /\
    subjects ctx !! py "Math" = Some (mkBucket 1 3).
Proof. eexists. split; vm_compute; reflexivity. Qed.

(** ** The theorems at concrete inputs *)

Lemma dashboard_subject_breakdown_witness :
  submissions_reference_homework three_submissions /\
  exists ctx,
    response (dashboard 0%Z three_submissions) = DashboardPage ctx /\
    forall subj,
      subjects ctx !! subj =
        if decide (homework_with_subject subj three_submissions = 0) then None
        else Some (mkBucket (homework_with_subject subj three_submissions)
                     (submissions_with_subject subj three_submissions)).
Proof.
  split; [exact three_submissions_invariant |].
  apply (dashboard_subject_breakdown 0%Z three_submissions).
  exact three_submissions_invariant.
Defined.

Lemma dashboard_total_completed_witness :
  submissions_reference_homework scenario /\
  exists ctx,
    response (dashboard 1500%Z scenario) = DashboardPage ctx /\
    total ctx = 2 /\
    completed ctx =
      size (list_to_set (map homework_id (submissions scenario)) : gset nat).
Proof.
  split; [exact scenario_invariant |].
  apply (dashboard_total_completed 1500%Z scenario).
  exact scenario_invariant.
Defined.


Lemma homework_detail_post_witness :
  get_homework one_homework 1 = Some worksheet /\
  method padded_comment = POST /\
  let msg := default [] (form padded_comment !! py "message") in
  let r := homework_detail 7%Z 1 padded_comment one_homework in
  response r = Redirect (ep_homework_detail 1) /\
  (whitespace_only msg -> store r = one_homework /\ flashes r = []) /\
  (strip msg <> [] ->
   exists t,
     store r = mkStore (users one_homework) (homeworks one_homework)
                 (threads one_homework ++ [t]) (resources one_homework)
                 (submissions one_homework) /\
     thread_homework_id t = hw_id worksheet /\
     message t = strip msg /\
     author t =
       or_default (form padded_comment !! py "author") (py "Anonymous") /\
     (form padded_comment !! py "author" = None \/
      form padded_comment !! py "author" = Some [] ->
      author t = py "Anonymous")).
Proof.
  split; [reflexivity |]. split; [reflexivity |].
  apply (homework_detail_post 7%Z 1 padded_comment one_homework worksheet);
    reflexivity.
Defined.

Example padded_comment_posted :
  threads (store (homework_detail 7%Z 1 padded_comment one_homework)) =
    [mkThread 1 1 (py "Anonymous") (py "due when?") (Some 7%Z)].
Proof. vm_compute. reflexivity. Qed.

Example blank_comment_ignored :
  homework_detail 7%Z 1 (mkRequest POST {[ py "message" := py "   " ]})
    one_homework =
    mkResult one_homework [] (Redirect (ep_homework_detail 1)).
Proof. vm_compute. reflexivity. Qed.

Lemma add_resource_spec_witness :
  get_homework one_homework 1 = Some worksheet /\
  let blank :=
    form video_link !! py "url" = None \/
    form video_link !! py "url" = Some [] in
  let r := add_resource 7%Z 1 video_link one_homework in
  response r = Redirect (ep_homework_detail 1) /\
  (store r = one_homework <-> blank) /\
  (blank -> flashes r = []) /\
  (forall u, form video_link !! py "url" = Some u -> u <> [] ->
   exists row,
     store r = mkStore (users one_homework) (homeworks one_homework)
                 (threads one_homework) (resources one_homework ++ [row])
                 (submissions one_homework) /\
     url row = Some u /\
     resource_homework_id row = hw_id worksheet).
Proof.
  split; [reflexivity |].
  apply (add_resource_spec 7%Z 1 video_link one_homework worksheet).
  reflexivity.
Defined.

Example video_link_added :
  resources (store (add_resource 7%Z 1 video_link one_homework)) =
    [mkResource 1 1 None (Some (py "https://example.com/v")) (Some 7%Z)].
Proof. vm_compute. reflexivity. Qed.

Lemma seed_twice_witness :
  seed 2%Z (store (seed 1%Z one_homework)) =
    mkResult (store (seed 1%Z one_homework)) [] (Body AlreadySeeded) /\
  (homeworks one_homework <> [] ->
   seed 1%Z one_homework = mkResult one_homework [] (Body AlreadySeeded)).
Proof. exact (seed_twice 1%Z 2%Z one_homework). Defined.

Example seed_empty_store :
  map hw_id (homeworks (store (seed 0%Z empty_store))) = [1; 2; 3] /\
  length (resources (store (seed 0%Z empty_store))) = 1 /\
  length (threads (store (seed 0%Z empty_store))) = 1 /\
  store (seed 9%Z (store (seed 0%Z empty_store))) = store (seed 0%Z empty_store).
Proof. vm_compute. repeat split. Qed.

Lemma submit_homework_default_student_witness :
  get_homework one_homework 1 = Some worksheet /\
  (form nameless !! py "student_name" = None \/
   form nameless !! py "student_name" = Some []) /\
  let r := submit_homework 7%Z 1 nameless one_homework in
  exists u,
    user_name u = py "Student" /\
    u ∈ users (store r) /\
    (first_user_by_name one_homework (py "Student") = Some u /\
       users (store r) = users one_homework \/
     first_user_by_name one_homework (py "Student") = None /\
       users (store r) = users one_homework ++ [u]) /\
    response r = Redirect (ep_homework_detail 1) /\
    forall c, form nameless !! py "content" = Some c -> c <> [] ->
      exists sub,
        submissions (store r) = submissions one_homework ++ [sub] /\
        student_id sub = user_id u /\
        homework_id sub = hw_id worksheet /\
        content sub = Some c /\
        flashes r = [(SubmittedSuccessfully, success)].
Proof.
  split; [reflexivity |]. split; [left; reflexivity |].
  apply (submit_homework_default_student 7%Z 1 nameless one_homework worksheet);
    [reflexivity | left; reflexivity].
Defined.

Example nameless_submitted :
  store (submit_homework 7%Z 1 nameless one_homework) =
    mkStore [mkUser 1 (py "Student") (Some false)] [worksheet] [] []
      [mkSubmission 1 1 1 (Some (py "my answer")) (Some 7%Z) None None].
Proof. vm_compute. reflexivity. Qed.

Lemma create_homework_spec_witness :
  method due_2030 = POST /\
  form due_2030 !! py "title" = Some (py "Worksheet") /\
  form due_2030 !! py "subject" = Some (py "Math") /\
  form due_2030 !! py "due_date" = Some (py "2030-01-01T09:00") /\
  let r := create_homework sample_fromisoformat 0%Z due_2030 empty_store in
  (sample_fromisoformat (py "2030-01-01T09:00") = None ->
   r = mkResult empty_store [] (ServerError ValueError)) /\
  (forall due, sample_fromisoformat (py "2030-01-01T09:00") = Some due ->
   exists hw,
     r = mkResult
           (mkStore (users empty_store) (homeworks empty_store ++ [hw])
              (threads empty_store) (resources empty_store)
              (submissions empty_store))
           [(HomeworkCreated, success)] (Redirect ep_index) /\
     title hw = py "Worksheet" /\ subject hw = py "Math" /\
     due_date hw = due /\
     color hw =
       Some (or_default (form due_2030 !! py "color") (py "#2d9cdb")) /\
     (form due_2030 !! py "color" = None \/
      form due_2030 !! py "color" = Some [] ->
      color hw = Some (py "#2d9cdb"))).
Proof.
  repeat (split; [reflexivity |]).
  apply (create_homework_spec sample_fromisoformat 0%Z due_2030 empty_store
           (py "Worksheet") (py "Math") (py "2030-01-01T09:00"));
    reflexivity.
Defined.

Example due_2030_created :
  homeworks (store (create_homework sample_fromisoformat 0%Z due_2030
                      empty_store)) =
    [mkHomework 1 (py "Worksheet") (py "Math") None 1893488400000000%Z
       (Some (py "#2d9cdb")) (Some 0%Z)].
Proof. vm_compute. reflexivity. Qed.

Example upcoming_scenario :
  upcoming_homework 1500%Z 10 scenario = [essay] /\
  upcoming_homework 0%Z 1 scenario = [worksheet] /\
  upcoming_homework 0%Z 10 (mkStore [] [essay; worksheet] [] [] []) =
    [worksheet; essay].
Proof. vm_compute. repeat split. Qed.

(** * Further properties *)

(** ** Strings, again *)

Lemma truthy_nonempty (s : pystr) : truthy s = true <-> s <> [].
Proof. destruct s; simpl; split; congruence. Qed.

Lemma or_default_nonempty (x : option pystr) (d : pystr) :
  d <> [] -> or_default x d <> [].
Proof.
  intros Hd. destruct x as [[|c t]|]; simpl; congruence.
Qed.

Lemma lstrip_fixed (s : pystr) :
  (forall c t, s = c :: t -> is_space c = false) -> lstrip s = s.
Proof.
  destruct s as [|c t]; [done |]. intros H. simpl.
  by rewrite (H c t eq_refl).
Qed.

(** Trimming a trimmed string changes nothing. *)
Lemma strip_idemp (s : pystr) : strip (strip s) = strip s.
Proof.
  destruct (strip_ends s) as [Hhead Hlast].
  unfold strip at 1. rewrite (lstrip_fixed (strip s)) by exact Hhead.
  unfold rstrip. rewrite lstrip_fixed; [apply rev_involutive |].
  intros c t H. apply (Hlast c (rev t)).
  apply (f_equal (@rev N)) in H. rewrite rev_involutive in H.
  by rewrite H.
Qed.

(** ** Ids *)

Lemma le_next_id (ids : list nat) (i : nat) : i ∈ ids -> i < next_id ids.
Proof.
  unfold next_id. induction 1 as [i ids | i j ids _ IH]; simpl; lia.
Qed.

Lemma next_id_fresh (ids : list nat) : next_id ids ∉ ids.
Proof. intros H. apply le_next_id in H. lia. Qed.

Lemma NoDup_snoc_id {A} (f : A -> nat) (l : list A) (x : A) :
  f x = next_id (map f l) -> NoDup (map f l) -> NoDup (map f (l ++ [x])).
Proof.
  intros Hx Hl. rewrite map_app. simpl. apply NoDup_app.
  split; [done |]. split; [|apply NoDup_singleton].
  intros i Hi Hi'. apply list_elem_of_singleton in Hi'. subst i.
  rewrite Hx in Hi. by apply next_id_fresh in Hi.
Qed.

(** ** Every request is a sequence of writes *)

Lemma first_user_by_name_snoc (s : Store) (u : User) :
  first_user_by_name s (user_name u) = None ->
  find (fun v => bool_decide (user_name v = user_name u)) (users s ++ [u])
  = Some u.
Proof.
  unfold first_user_by_name.
  induction (users s) as [|v l IH]; simpl.
  - intros _. by rewrite bool_decide_eq_true_2.
  - destruct (bool_decide (user_name v = user_name u)); [discriminate | done].
Qed.

Lemma create_homework_writes (fromisoformat : pystr -> option datetime)
    (now : datetime) (req : Request) (s : Store) :
  rtc Write s (store (create_homework fromisoformat now req s)).
Proof.
  unfold create_homework, add_homework.
  repeat case_match; simpl; try apply rtc_refl.
  apply rtc_once, write_homework; simpl; [done |].
  eexists. split; [done |]. by apply or_default_nonempty.
Qed.

Lemma homework_detail_writes (now : datetime) (hid : nat) (req : Request)
    (s : Store) :
  rtc Write s (store (homework_detail now hid req s)).
Proof.
  unfold homework_detail, add_thread.
  destruct (get_homework s hid) as [hw|] eqn:Hhw; [|apply rtc_refl].
  destruct (method req); [apply rtc_refl |].
  destruct (truthy _) eqn:Hm; simpl; [|apply rtc_refl].
  pose proof (get_homework_elem_of _ _ _ Hhw) as [_ Hid].
  apply rtc_once, write_thread; simpl.
  - done.
  - rewrite Hid. by eexists.
  - by apply or_default_nonempty.
  - by apply truthy_nonempty.
  - apply strip_idemp.
Qed.

Lemma add_resource_writes (now : datetime) (hid : nat) (req : Request)
    (s : Store) :
  rtc Write s (store (add_resource now hid req s)).
Proof.
  unfold add_resource, add_resource_row.
  destruct (get_homework s hid) as [hw|] eqn:Hhw; [|apply rtc_refl].
  pose proof (get_homework_elem_of _ _ _ Hhw) as [_ Hid].
  destruct (form req !! py "url") as [[|c u]|]; simpl; try apply rtc_refl.
  apply rtc_once, write_resource; simpl; [done | |by eexists].
  rewrite Hid. by eexists.
Qed.

Lemma submit_homework_writes (now : datetime) (hid : nat) (req : Request)
    (s : Store) :
  rtc Write s (store (submit_homework now hid req s)).
Proof.
  unfold submit_homework, add_user, add_submission.
  destruct (get_homework s hid) as [hw|] eqn:Hhw; [|apply rtc_refl].
  pose proof (get_homework_elem_of _ _ _ Hhw) as [_ Hid].
  set (name := or_default (form req !! py "student_name") (py "Student")).
  assert (name <> []) as Hname by (by apply or_default_nonempty).
  destruct (first_user_by_name s name) as [u|] eqn:Hu.
  - apply first_user_by_name_found in Hu as [Hin _].
    destruct (form req !! py "content") as [[|c k]|]; simpl;
      try apply rtc_refl.
    apply rtc_once, (write_submission _ _ u); simpl; try done.
    + rewrite Hid. by eexists.
    + by eexists.
  - set (u := mkUser (next_id (map user_id (users s))) name (Some false)).
    assert (Write s (mkStore (users s ++ [u]) (homeworks s) (threads s)
                       (resources s) (submissions s))) as Hw
      by (by apply write_user).
    destruct (form req !! py "content") as [[|c k]|]; simpl;
      try (by apply rtc_once).
    eapply rtc_l; [exact Hw |].
    set (s1 := mkStore (users s ++ [u]) (homeworks s) (threads s)
                 (resources s) (submissions s)).
    apply rtc_once.
    match goal with
    | |- Write _ (mkStore _ _ _ _ (_ ++ [?sub])) =>
        apply (write_submission s1 sub u)
    end; simpl; try done.
    + change (is_Some (get_homework s (hw_id hw))).
      rewrite Hid. by eexists.
    + apply elem_of_app. right. by apply list_elem_of_singleton.
    + by eexists.
Qed.

(** The store the seed route leaves when the Homework table was empty. *)
Lemma seed_store (now : datetime) (s : Store) :
  homeworks s = [] ->
  seed now s =
    mkResult
      (mkStore (users s)
         [seed_algebra now; seed_essay now; seed_chemistry now]
         (threads s ++
          [mkThread (next_id (map thread_id (threads s))) 1 (py "Teacher A")
             (py "Remember to show your steps.") (Some now)])
         (resources s ++
          [mkResource (next_id (map resource_id (resources s))) 1
             (Some (py "Video explanation"))
             (Some (py "https://example.com/algebra-video")) (Some now)])
         (submissions s))
      [] (Body SeededSampleData).
Proof.
  destruct s as [us hs ts rs ss]. simpl. intros ->. reflexivity.
Qed.

Lemma seed_writes (now : datetime) (s : Store) :
  rtc Write s (store (seed now s)).
Proof.
  destruct (homeworks s) as [|hw hs] eqn:E.
  - rewrite (seed_store now s E). destruct s as [us hs ts rs ss].
    simpl in *. subst hs. simpl.
    eapply rtc_l; [apply (write_homework _ (seed_algebra now)) |].
    { reflexivity. } { by eexists. }
    eapply rtc_l; [apply (write_homework _ (seed_essay now)) |].
    { reflexivity. } { by eexists. }
    eapply rtc_l; [apply (write_homework _ (seed_chemistry now)) |].
    { reflexivity. } { by eexists. }
    eapply rtc_l.
    { apply (write_resource _
               (mkResource (next_id (map resource_id rs)) 1
                  (Some (py "Video explanation"))
                  (Some (py "https://example.com/algebra-video"))
                  (Some now))); simpl; [done | by eexists | by eexists]. }
    apply rtc_once.
    apply (write_thread
             (mkStore us [seed_algebra now; seed_essay now; seed_chemistry now]
                ts
                (rs ++
                 [mkResource (next_id (map resource_id rs)) 1
                    (Some (py "Video explanation"))
                    (Some (py "https://example.com/algebra-video"))
                    (Some now)]) ss)
             (mkThread (next_id (map thread_id ts)) 1 (py "Teacher A")
                (py "Remember to show your steps.") (Some now)));
      simpl; [done | by eexists | done | done | by vm_compute].
  - rewrite seed_already_seeded; [apply rtc_refl |]. rewrite E. simpl. lia.
Qed.

Lemma dispatch_writes (fromisoformat : pystr -> option datetime)
    (now : datetime) (c : Call) (s : Store) :
  rtc Write s (store (dispatch fromisoformat now c s)).
Proof.
  destruct c; simpl.
  - apply rtc_refl.
  - apply create_homework_writes.
  - apply homework_detail_writes.
  - apply add_resource_writes.
  - apply submit_homework_writes.
  - unfold dashboard. case_match; apply rtc_refl.
  - apply seed_writes.
Qed.

Lemma run_writes (fromisoformat : pystr -> option datetime)
    (calls : list (datetime * Call)) (s : Store) :
  rtc Write s (run fromisoformat calls s).
Proof.
  revert s. induction calls as [|[now c] calls IH]; intros s; simpl.
  - apply rtc_refl.
  - etransitivity; [apply dispatch_writes | apply IH].
Qed.

(** An invariant of single writes holds along every sequence of requests. *)
Lemma run_preserves (P : Store -> Prop)
    (fromisoformat : pystr -> option datetime)
    (calls : list (datetime * Call)) (s : Store) :
  (forall s1 s2, Write s1 s2 -> P s1 -> P s2) ->
  P s -> P (run fromisoformat calls s).
Proof.
  intros Hstep. induction (run_writes fromisoformat calls s); eauto.
Qed.

(** ** Invariants along the requests *)

Lemma Write_ids_unique (s1 s2 : Store) :
  Write s1 s2 -> ids_unique s1 -> ids_unique s2.
Proof.
  unfold ids_unique. intros Hw (Hu & Hh & Ht & Hr & Hs).
  inversion Hw; subst; simpl; repeat split;
    try done; by apply NoDup_snoc_id.
Qed.

(** X1. Primary keys stay unique: if no two rows of a table share an id,
    no sequence of requests makes two rows share one. *)
Theorem run_ids_unique (fromisoformat : pystr -> option datetime)
    (calls : list (datetime * Call)) (s : Store) :
  ids_unique s -> ids_unique (run fromisoformat calls s).
Proof. apply run_preserves, Write_ids_unique. Qed.

Lemma references_exist_step (s s' : Store) (us : list User)
    (hs : list Homework) :
  users s' = users s ++ us ->
  homeworks s' = homeworks s ++ hs ->
  (threads s' = threads s \/
   exists t, threads s' = threads s ++ [t] /\
             is_Some (get_homework s (thread_homework_id t))) ->
  (resources s' = resources s \/
   exists r, resources s' = resources s ++ [r] /\
             is_Some (get_homework s (resource_homework_id r))) ->
  (submissions s' = submissions s \/
   exists sub u, submissions s' = submissions s ++ [sub] /\
                 is_Some (get_homework s (homework_id sub)) /\
                 u ∈ users s /\ student_id sub = user_id u) ->
  references_exist s -> references_exist s'.
Proof.
  intros Hus Hhs Ht Hr Hs (It & Ir & Is).
  assert (forall i, is_Some (get_homework s i) -> is_Some (get_homework s' i))
    as Hget by (intros i; by apply get_homework_app with (hs := hs)).
  assert (forall u, u ∈ users s -> u ∈ users s') as Huser
    by (intros u Hu; rewrite Hus; apply elem_of_app; by left).
  unfold references_exist. repeat split.
  - destruct Ht as [-> | (t & -> & Hnew)].
    + eapply Forall_impl; [exact It | auto].
    + apply Forall_app. split; [eapply Forall_impl; [exact It | auto] |].
      constructor; [auto | constructor].
  - destruct Hr as [-> | (r & -> & Hnew)].
    + eapply Forall_impl; [exact Ir | auto].
    + apply Forall_app. split; [eapply Forall_impl; [exact Ir | auto] |].
      constructor; [auto | constructor].
  - assert (Forall (fun sub =>
              is_Some (get_homework s' (homework_id sub)) /\
              exists u, u ∈ users s' /\ user_id u = student_id sub)
              (submissions s)) as Hold.
    { eapply Forall_impl; [exact Is |]. intros sub [? (u & ? & ?)].
      split; [auto |]. exists u. auto. }
    destruct Hs as [-> | (sub & u & -> & Hhw & Hu & Hid)]; [done |].
    apply Forall_app. split; [done |].
    constructor; [|constructor]. split; [auto |]. exists u. auto.
Qed.

Lemma Write_references_exist (s1 s2 : Store) :
  Write s1 s2 -> references_exist s1 -> references_exist s2.
Proof.
  intros Hw. inversion Hw; subst.
  - apply (references_exist_step _ _ [u] []); simpl;
      rewrite ?app_nil_r; auto.
  - apply (references_exist_step _ _ [] [hw]); simpl;
      rewrite ?app_nil_r; auto.
  - apply (references_exist_step _ _ [] []); simpl;
      rewrite ?app_nil_r; eauto.
  - apply (references_exist_step _ _ [] []); simpl;
      rewrite ?app_nil_r; eauto.
  - apply (references_exist_step _ _ [] []); simpl;
      rewrite ?app_nil_r; eauto 10.
Qed.

(** X2. Foreign keys stay valid: if every Thread, Resource and Submission
    row names a Homework row, and every Submission row a User row, the same
    holds after any sequence of requests. *)
Theorem run_references_exist (fromisoformat : pystr -> option datetime)
    (calls : list (datetime * Call)) (s : Store) :
  references_exist s -> references_exist (run fromisoformat calls s).
Proof. apply run_preserves, Write_references_exist. Qed.

Lemma first_user_by_name_None (s : Store) (n : pystr) :
  first_user_by_name s n = None -> n ∉ map user_name (users s).
Proof.
  unfold first_user_by_name. intros H Hin.
  apply list_elem_of_fmap in Hin as (u & -> & Hu).
  apply list_elem_of_In in Hu.
  apply (find_none _ _ H) in Hu. by apply bool_decide_eq_false in Hu.
Qed.

Lemma Write_user_names_unique (s1 s2 : Store) :
  Write s1 s2 -> user_names_unique s1 -> user_names_unique s2.
Proof.
  unfold user_names_unique. intros Hw Hu. inversion Hw; subst; simpl; try done.
  rewrite map_app. simpl. apply NoDup_app. split; [done |].
  split; [|apply NoDup_singleton].
  intros n Hn Hn'. apply list_elem_of_singleton in Hn'. subst n.
  by eapply first_user_by_name_None.
Qed.

(** X3. Students are found before they are created: if no two User rows
    share a name, none do after any sequence of requests. *)
Theorem run_user_names_unique (fromisoformat : pystr -> option datetime)
    (calls : list (datetime * Call)) (s : Store) :
  user_names_unique s -> user_names_unique (run fromisoformat calls s).
Proof. apply run_preserves, Write_user_names_unique. Qed.

Lemma Write_ungraded (s1 s2 : Store) :
  Write s1 s2 -> ungraded s1 -> ungraded s2.
Proof.
  unfold ungraded. intros Hw Hu. inversion Hw; subst; simpl; try done.
  apply Forall_app. split; [done |]. by repeat constructor.
Qed.

Lemma Write_rows_checked (s1 s2 : Store) :
  Write s1 s2 -> rows_checked s1 -> rows_checked s2.
Proof.
  unfold rows_checked. intros Hw (Hu & Hh & Ht & Hr & Hs).
  inversion Hw; subst; simpl; repeat split; try done;
    (apply Forall_app; split; [done |]); by repeat constructor.
Qed.

(** X4. Stored rows passed the handlers' checks: user names, colors,
    thread authors and messages, resource urls and submission contents are
    never empty, thread messages are trimmed, and no user is a teacher; if
    this holds of a store it holds after any sequence of requests. *)
Theorem run_rows_checked (fromisoformat : pystr -> option datetime)
    (calls : list (datetime * Call)) (s : Store) :
  rows_checked s -> rows_checked (run fromisoformat calls s).
Proof. apply run_preserves, Write_rows_checked. Qed.

Lemma rows_kept_refl (s : Store) : rows_kept s s.
Proof. by repeat split. Qed.

Lemma rows_kept_trans (s1 s2 s3 : Store) :
  rows_kept s1 s2 -> rows_kept s2 s3 -> rows_kept s1 s3.
Proof.
  unfold rows_kept. intros (? & ? & ? & ? & ?) (? & ? & ? & ? & ?).
  repeat split; by etransitivity.
Qed.

Lemma Write_rows_kept (s1 s2 : Store) : Write s1 s2 -> rows_kept s1 s2.
Proof.
  unfold rows_kept. intros Hw.
  inversion Hw; subst; simpl; repeat split; try done; by apply prefix_app_r.
Qed.

(** X5. No request deletes, changes or reorders a row: after any sequence
    of requests every table begins with the rows it had before, in the same
    order. *)
Theorem run_rows_kept (fromisoformat : pystr -> option datetime)
    (calls : list (datetime * Call)) (s : Store) :
  rows_kept s (run fromisoformat calls s).
Proof.
  induction (run_writes fromisoformat calls s) as [|s1 s2 s3 Hw _ IH].
  - apply rows_kept_refl.
  - eapply rows_kept_trans; [by apply Write_rows_kept | exact IH].
Qed.

(** ** Grades *)

(** X6. No route grades a submission: starting from a store without grades
    whose submissions reference existing homework, after any sequence of
    requests the dashboard renders and its [avg_grade] is [None]. *)
Theorem run_avg_grade_none (fromisoformat : pystr -> option datetime)
    (calls : list (datetime * Call)) (now : datetime) (s : Store) :
  ungraded s ->
  submissions_reference_homework s ->
  exists ctx,
    response (dashboard now (run fromisoformat calls s)) = DashboardPage ctx /\
    avg_grade ctx = None /\
    ungraded (run fromisoformat calls s).
Proof.
  intros Hu Hinv.
  apply (run_preserves ungraded fromisoformat calls) in Hu;
    [|apply Write_ungraded].
  apply (run_invariant fromisoformat calls) in Hinv.
  destruct (dashboard_response now _ Hinv) as (m & _ & Hr).
  eexists. split; [exact Hr |]. simpl. split; [|done].
  rewrite graded_omap. apply average_None, omap_grade_nil.
  eapply Forall_impl; [exact Hu |]. by intros sub [? _].
Qed.

(** ** Requests that are refused *)

Lemma get_homework_None (s : Store) (i : nat) :
  get_homework s i = None <-> i ∉ map hw_id (homeworks s).
Proof.
  unfold get_homework. induction (homeworks s) as [|hw l IH]; simpl.
  - split; [intros _ H; by apply not_elem_of_nil in H | done].
  - destruct (hw_id hw =? i) eqn:E.
    + apply Nat.eqb_eq in E. split; [discriminate |].
      intros H. destruct H. rewrite E. apply list_elem_of_here.
    + apply Nat.eqb_neq in E. rewrite IH. split.
      * intros H Hin. apply elem_of_cons in Hin as [? | ?]; by auto.
      * intros H Hin. apply H. by apply list_elem_of_further.
Qed.

(** X7. For an id below 2^63 that no Homework row has, the detail route
    answers 404 to a GET and to a POST, and the resource and submit routes
    answer 404 to a POST (the only method they accept), whatever the form:
    nothing is stored and nothing flashed. *)
Theorem homework_not_found (now : datetime) (hid : nat) (req : Request)
    (s : Store) :
  (Z.of_nat hid < 2 ^ 63)%Z ->
  hid ∉ map hw_id (homeworks s) ->
  homework_detail now hid req s = mkResult s [] NotFound /\
  (method req = POST ->
   add_resource now hid req s = mkResult s [] NotFound /\
   submit_homework now hid req s = mkResult s [] NotFound).
Proof.
  intros _ H. apply get_homework_None in H.
  unfold homework_detail, add_resource, submit_homework. by rewrite H.
Qed.

(** X8. A create request without a title, a subject or a due date is
    answered 400 before anything is parsed or stored, whatever its other
    fields are. *)
Theorem create_homework_missing_field
    (fromisoformat : pystr -> option datetime) (now : datetime)
    (req : Request) (s : Store) :
  method req = POST ->
  form req !! py "title" = None \/ form req !! py "subject" = None \/
    form req !! py "due_date" = None ->
  create_homework fromisoformat now req s = mkResult s [] BadRequest.
Proof.
  intros Hpost H. unfold create_homework. rewrite Hpost.
  destruct (form req !! py "title"); [|done].
  destruct (form req !! py "subject"); [|done].
  destruct (form req !! py "due_date"); [|done].
  by destruct H as [? | [? | ?]].
Qed.

(** ** Creating and fetching *)

Lemma find_snoc_fresh (hs : list Homework) (hw : Homework) :
  hw_id hw = next_id (map hw_id hs) ->
  find (fun x => Nat.eqb (hw_id x) (hw_id hw)) (hs ++ [hw]) = Some hw.
Proof.
  intros Hid.
  assert (forall x, x ∈ hs -> hw_id x <> hw_id hw) as Hne.
  { intros x Hx E. apply (next_id_fresh (map hw_id hs)).
    rewrite <- Hid, <- E. apply list_elem_of_fmap. by exists x. }
  clear Hid. induction hs as [|x l IH]; simpl.
  - by rewrite Nat.eqb_refl.
  - destruct (hw_id x =? hw_id hw) eqn:E.
    + apply Nat.eqb_eq in E. destruct (Hne x); [apply list_elem_of_here | done].
    + apply IH. intros y Hy. apply Hne. by apply list_elem_of_further.
Qed.

Lemma find_app_found (hs hs' : list Homework) (i : nat) (hw : Homework) :
  find (fun x => Nat.eqb (hw_id x) i) hs = Some hw ->
  find (fun x => Nat.eqb (hw_id x) i) (hs ++ hs') = Some hw.
Proof.
  induction hs as [|x l IH]; simpl; [discriminate |].
  destruct (hw_id x =? i); [done | exact IH].
Qed.

Lemma filter_none {A} (P : A -> Prop) `{!forall x, Decision (P x)}
    (l : list A) :
  (forall x, x ∈ l -> ~ P x) -> filter P l = [].
Proof.
  induction l as [|x l IH]; intros Hnone; [done |].
  rewrite filter_cons, decide_False by (apply Hnone, list_elem_of_here).
  apply IH. intros y Hy. apply Hnone. by apply list_elem_of_further.
Qed.

Lemma submissions_below_next_id (s : Store) (sub : Submission) :
  submissions_reference_homework s ->
  sub ∈ submissions s ->
  homework_id sub <> next_id (map hw_id (homeworks s)).
Proof.
  unfold submissions_reference_homework. rewrite Forall_forall.
  intros Hinv Hsub E. destruct (Hinv sub Hsub) as [hw Hhw].
  apply get_homework_elem_of in Hhw as [Hin Hid].
  apply (next_id_fresh (map hw_id (homeworks s))).
  rewrite <- E, <- Hid. apply list_elem_of_fmap. by exists hw.
Qed.

(** X9. A created Homework can be fetched at once: after a create request
    that parses, the new row is the Homework of the next id, every id that
    resolved before resolves to the same row, and (on a store whose
    submissions reference existing homework) the detail page of the new row
    shows it with no submissions. *)
Theorem create_homework_then_detail
    (fromisoformat : pystr -> option datetime) (now now' : datetime)
    (req req' : Request) (s : Store) (ttl subj raw : pystr) (due : datetime) :
  method req = POST ->
  form req !! py "title" = Some ttl ->
  form req !! py "subject" = Some subj ->
  form req !! py "due_date" = Some raw ->
  fromisoformat raw = Some due ->
  method req' = GET ->
  submissions_reference_homework s ->
  let s' := store (create_homework fromisoformat now req s) in
  let i := next_id (map hw_id (homeworks s)) in
  exists hw,
    get_homework s' i = Some hw /\
    hw_id hw = i /\ title hw = ttl /\ subject hw = subj /\
    due_date hw = due /\
    (forall j old, get_homework s j = Some old ->
                   get_homework s' j = Some old) /\
    homework_detail now' i req' s' = mkResult s' [] (HomeworkDetailPage hw []).
Proof.
  intros Hpost Ht Hs Hd Hp Hget Hinv s' i. subst s' i.
  unfold create_homework. rewrite Hpost, Ht, Hs, Hd, Hp.
  unfold add_homework. simpl.
  set (hw := mkHomework _ ttl subj _ due _ _).
  set (s' := mkStore _ (homeworks s ++ [hw]) _ _ _).
  assert (hw_id hw = next_id (map hw_id (homeworks s))) as Hid by done.
  assert (get_homework s' (next_id (map hw_id (homeworks s))) = Some hw)
    as Hfetch.
  { unfold get_homework. simpl. rewrite <- Hid. by apply find_snoc_fresh. }
  exists hw. repeat split; [exact Hfetch | |].
  - intros j old Hold. unfold get_homework. simpl. by apply find_app_found.
  - unfold homework_detail. rewrite Hfetch, Hget. do 2 f_equal. simpl.
    apply filter_none. intros sub Hsub.
    by apply submissions_below_next_id.
Qed.

(** ** Submitting, again *)

Lemma get_homework_same (s s' : Store) (i : nat) :
  homeworks s' = homeworks s -> get_homework s' i = get_homework s i.
Proof. unfold get_homework. by intros ->. Qed.

Lemma first_user_by_name_same (s s' : Store) (n : pystr) :
  users s' = users s -> first_user_by_name s' n = first_user_by_name s n.
Proof. unfold first_user_by_name. by intros ->. Qed.

(** After a submit request the student's name resolves to a User row, and
    the submissions it added, if any, carry that user's id. *)
Lemma submit_homework_resolves (now : datetime) (hid : nat) (req : Request)
    (s : Store) (hw : Homework) :
  get_homework s hid = Some hw ->
  let name := or_default (form req !! py "student_name") (py "Student") in
  let s' := store (submit_homework now hid req s) in
  exists u news,
    first_user_by_name s' name = Some u /\
    (forall v, first_user_by_name s name = Some v -> v = u /\ users s' = users s) /\
    submissions s' = submissions s ++ news /\
    Forall (fun sub => student_id sub = user_id u) news.
Proof.
  intros Hhw name s'.
  destruct (submit_homework_student now hid req s hw Hhw)
    as (u & Hu & Hfc & _ & _ & _ & _ & Hsub).
  fold name in Hu, Hfc. fold s' in Hfc, Hsub.
  assert (first_user_by_name s' name = Some u /\
          forall v, first_user_by_name s name = Some v ->
                    v = u /\ users s' = users s) as [Hres Hold].
  { destruct Hfc as [[Hf Hus] | [Hf Hus]].
    - split; [by rewrite (first_user_by_name_same s s') |].
      intros v Hv. split; congruence.
    - split; [|intros v Hv; congruence].
      unfold first_user_by_name. rewrite Hus, <- Hu.
      apply first_user_by_name_snoc. by rewrite Hu. }
  exists u.
  destruct (form req !! py "content") as [[|c k]|].
  - exists []. rewrite app_nil_r. destruct Hsub as [Hs _].
    do 3 (split; [done |]). constructor.
  - destruct Hsub as (sub & Hs & Hid & _). exists [sub].
    do 3 (split; [done |]). by repeat constructor.
  - exists []. rewrite app_nil_r. destruct Hsub as [Hs _].
    do 3 (split; [done |]). constructor.
Qed.

(** X10. Find before create: of two submit requests in a row under the same
    student name, the second adds no User row, and the submissions the two
    add carry the id of one and the same user. *)
Theorem submit_homework_twice (now1 now2 : datetime) (hid1 hid2 : nat)
    (req1 req2 : Request) (s : Store) (hw : Homework) :
  get_homework s hid1 = Some hw ->
  or_default (form req1 !! py "student_name") (py "Student") =
    or_default (form req2 !! py "student_name") (py "Student") ->
  let s1 := store (submit_homework now1 hid1 req1 s) in
  let s2 := store (submit_homework now2 hid2 req2 s1) in
  users s2 = users s1 /\
  exists u news,
    u ∈ users s1 /\
    submissions s2 = submissions s ++ news /\
    Forall (fun sub => student_id sub = user_id u) news.
Proof.
  intros Hhw Hname s1 s2.
  destruct (submit_homework_resolves now1 hid1 req1 s hw Hhw)
    as (u & news1 & Hres & _ & Hsubs1 & Hall1).
  fold s1 in Hres, Hsubs1. rewrite Hname in Hres.
  pose proof (first_user_by_name_found _ _ _ Hres) as [Hin _].
  destruct (get_homework s1 hid2) as [hw2|] eqn:Hhw2.
  - destruct (submit_homework_resolves now2 hid2 req2 s1 hw2 Hhw2)
      as (u2 & news2 & _ & Hold & Hsubs2 & Hall2).
    fold s2 in Hold, Hsubs2. destruct (Hold u Hres) as [-> Hus].
    split; [done |]. exists u2, (news1 ++ news2).
    split; [done |]. split; [by rewrite Hsubs2, Hsubs1, app_assoc |].
    by apply Forall_app.
  - assert (s2 = s1) as ->.
    { subst s2. unfold submit_homework. by rewrite Hhw2. }
    split; [done |]. by exists u, news1.
Qed.

(** X11. A stored submission shows up on the detail page: after a submit
    request with content, the detail page of the homework lists the
    submissions it listed before, followed by the new one. *)
Theorem submit_homework_then_detail (now now' : datetime) (hid : nat)
    (req req' : Request) (s : Store) (hw : Homework) (c : pystr) :
  get_homework s hid = Some hw ->
  form req !! py "content" = Some c ->
  c <> [] ->
  method req' = GET ->
  let s' := store (submit_homework now hid req s) in
  exists sub,
    content sub = Some c /\
    homework_id sub = hid /\
    homework_detail now' hid req' s' =
      mkResult s' []
        (HomeworkDetailPage hw
           (filter (fun x => homework_id x = hid) (submissions s) ++ [sub])).
Proof.
  intros Hhw Hc Hne Hget s'.
  destruct (submit_homework_student now hid req s hw Hhw)
    as (u & _ & _ & Hhs & _ & _ & _ & Hsub).
  fold s' in Hhs, Hsub. rewrite Hc in Hsub.
  destruct c as [|c0 k]; [done |].
  destruct Hsub as (sub & Hs & _ & Hid & Hcont & _).
  pose proof (get_homework_elem_of _ _ _ Hhw) as [_ Hhid].
  exists sub. split; [done |]. split; [congruence |].
  unfold homework_detail. rewrite (get_homework_same s s') by done.
  rewrite Hhw, Hget, Hs, Hhid, filter_app. do 3 f_equal.
  rewrite filter_cons, decide_True by congruence. done.
Qed.

(** ** The dashboard, again *)

Lemma size_list_to_set_le (l : list nat) :
  size (list_to_set l : gset nat) <= length l.
Proof.
  rewrite <- length_remove_dups.
  induction l as [|x l IH]; simpl; [done |].
  case_decide; simpl; lia.
Qed.

(** X12. The first submission to a homework is what completes it: a submit
    request with content raises the [completed] count by one when the
    homework had no submission yet, and leaves it as it was otherwise. *)
Theorem submit_homework_completed (now : datetime) (hid : nat)
    (req : Request) (s : Store) (hw : Homework) (c : pystr) :
  get_homework s hid = Some hw ->
  form req !! py "content" = Some c ->
  c <> [] ->
  completed_count (store (submit_homework now hid req s)) =
    if decide (hid ∈ map homework_id (submissions s))
    then completed_count s
    else S (completed_count s).
Proof.
  intros Hhw Hc Hne.
  destruct (submit_homework_student now hid req s hw Hhw)
    as (u & _ & _ & _ & _ & _ & _ & Hsub).
  rewrite Hc in Hsub. destruct c as [|c0 k]; [done |].
  destruct Hsub as (sub & Hs & _ & Hid & _).
  pose proof (get_homework_elem_of _ _ _ Hhw) as [_ Hhid].
  unfold completed_count. rewrite Hs, map_app, !length_remove_dups.
  simpl. rewrite Hid, Hhid, list_to_set_app_L, list_to_set_singleton_L.
  case_decide as Hin.
  - f_equal. rewrite (comm_L union). apply subseteq_union_1_L.
    apply singleton_subseteq_l. by apply elem_of_list_to_set.
  - rewrite size_union, size_singleton; [lia |].
    apply disjoint_singleton_r. by rewrite elem_of_list_to_set.
Qed.

(** X13. The counters of the dashboard stay within each other: on a store
    whose submissions reference existing homework, [pending] and
    [completed] are at most [total], and [completed] is at most the number
    of submissions. *)
Theorem dashboard_bounds (now : datetime) (s : Store) :
  submissions_reference_homework s ->
  exists ctx,
    response (dashboard now s) = DashboardPage ctx /\
    pending ctx <= total ctx /\
    completed ctx <= total ctx /\
    completed ctx <= length (submissions s).
Proof.
  intros Hinv. destruct (dashboard_response now s Hinv) as (m & _ & Hr).
  eexists. split; [exact Hr |]. simpl. split; [apply length_filter |].
  unfold completed_count. rewrite length_remove_dups. split.
  - rewrite <- (length_map hw_id (homeworks s)).
    etransitivity; [|apply size_list_to_set_le].
    apply subseteq_size. intros i Hi.
    apply elem_of_list_to_set, list_elem_of_fmap in Hi as (sub & -> & Hsub).
    unfold submissions_reference_homework in Hinv.
    rewrite Forall_forall in Hinv. destruct (Hinv sub Hsub) as [hw Hhw].
    apply get_homework_elem_of in Hhw as [Hin Hid].
    apply elem_of_list_to_set, list_elem_of_fmap. by exists hw.
  - etransitivity; [apply size_list_to_set_le |]. by rewrite length_map.
Qed.

Section BucketSums.

(** A counter of the buckets, summed over the subjects. *)
Variable w : Bucket -> nat.

Lemma sum_insert_fresh (m : gmap pystr Bucket) (k : pystr) (b : Bucket) :
  m !! k = None ->
  map_fold (fun _ b acc => w b + acc) 0 (<[k := b]> m) =
    w b + map_fold (fun _ b acc => w b + acc) 0 m.
Proof.
  intros Hk. rewrite map_fold_insert_L; [done | | done].
  intros. lia.
Qed.

Lemma sum_insert_over (m : gmap pystr Bucket) (k : pystr) (b b' : Bucket) :
  m !! k = Some b ->
  map_fold (fun _ b acc => w b + acc) 0 (<[k := b']> m) + w b =
    map_fold (fun _ b acc => w b + acc) 0 m + w b'.
Proof.
  intros Hk. rewrite <- (insert_delete_eq m k b').
  rewrite sum_insert_fresh by apply lookup_delete_eq.
  rewrite <- (insert_delete_id m k b Hk) at 2.
  rewrite sum_insert_fresh by apply lookup_delete_eq. lia.
Qed.

End BucketSums.

Lemma count_homework_insert (m : gmap pystr Bucket) (hw : Homework) :
  count_homework m hw =
    <[subject hw :=
        mkBucket (S (bucket_total (bucket_of (m !! subject hw))))
          (bucket_submitted (bucket_of (m !! subject hw)))]> m.
Proof.
  apply map_eq. intros k.
  rewrite count_homework_lookup, lookup_insert.
  case_decide as E; [by subst k | done].
Qed.

Lemma first_loop_sums (l : list Homework) (m : gmap pystr Bucket) :
  sum_total (fold_left count_homework l m) = sum_total m + length l /\
  sum_submitted (fold_left count_homework l m) = sum_submitted m.
Proof.
  revert m. induction l as [|hw l IH]; intros m; simpl; [split; lia |].
  destruct (IH (count_homework m hw)) as [-> ->].
  rewrite count_homework_insert. unfold sum_total, sum_submitted.
  destruct (m !! subject hw) as [b|] eqn:Hb; simpl.
  - pose proof (sum_insert_over bucket_total m (subject hw) b
                  (mkBucket (S (bucket_total b)) (bucket_submitted b)) Hb).
    pose proof (sum_insert_over bucket_submitted m (subject hw) b
                  (mkBucket (S (bucket_total b)) (bucket_submitted b)) Hb).
    simpl in *. lia.
  - rewrite (sum_insert_fresh bucket_total), (sum_insert_fresh bucket_submitted)
      by done.
    simpl. lia.
Qed.

Lemma second_loop_sums (s : Store) (subs : list Submission)
    (m m' : gmap pystr Bucket) :
  count_submissions s m subs = inr m' ->
  sum_total m' = sum_total m /\
  sum_submitted m' = sum_submitted m + length subs.
Proof.
  revert m. induction subs as [|sub subs IH]; intros m; simpl.
  - intros [= <-]. split; lia.
  - unfold count_submission.
    destruct (get_homework s (homework_id sub)) as [hw|]; [|discriminate].
    destruct (m !! subject hw) as [b|] eqn:Hb; [|discriminate].
    intros Hrun. destruct (IH _ Hrun) as [-> ->].
    unfold sum_total, sum_submitted.
    pose proof (sum_insert_over bucket_total m (subject hw) b
                  (mkBucket (bucket_total b) (S (bucket_submitted b))) Hb).
    pose proof (sum_insert_over bucket_submitted m (subject hw) b
                  (mkBucket (bucket_total b) (S (bucket_submitted b))) Hb).
    simpl in *. lia.
Qed.

(** X14. The buckets of the dashboard add up: on a store whose submissions
    reference existing homework, the [total] counters of all subjects sum
    to the number of Homework rows and the [submitted] counters to the
    number of Submission rows. *)
Theorem dashboard_subjects_sum (now : datetime) (s : Store) :
  submissions_reference_homework s ->
  exists ctx,
    response (dashboard now s) = DashboardPage ctx /\
    sum_total (subjects ctx) = total ctx /\
    sum_submitted (subjects ctx) = length (submissions s).
Proof.
  intros Hinv. destruct (dashboard_response now s Hinv) as (m & Hm & Hr).
  eexists. split; [exact Hr |]. simpl.
  unfold subject_breakdown in Hm.
  destruct (second_loop_sums _ _ _ _ Hm) as [-> ->].
  destruct (first_loop_sums (homeworks s) ∅) as [-> ->].
  unfold sum_total, sum_submitted. rewrite !map_fold_empty. lia.
Qed.

(** ** The homepage, again *)

(** X15. The homepage shows the pending homework up to its limit: the
    upcoming list has as many rows as the dashboard counts pending, capped
    at the limit, and when the limit is not reached it is a rearrangement
    of all the rows due at [now] or later. *)
Theorem upcoming_homework_length (now : datetime) (limit : nat) (s : Store) :
  submissions_reference_homework s ->
  exists ctx,
    response (dashboard now s) = DashboardPage ctx /\
    length (upcoming_homework now limit s) = limit `min` pending ctx /\
    (pending ctx <= limit ->
     upcoming_homework now limit s ≡ₚ
       filter (fun hw => (now <= due_date hw)%Z) (homeworks s)).
Proof.
  intros Hinv. destruct (dashboard_response now s Hinv) as (m & _ & Hr).
  eexists. split; [exact Hr |]. simpl. unfold upcoming_homework.
  pose proof (order_by_due_date_perm
                (filter (fun hw => (now <= due_date hw)%Z) (homeworks s)))
    as Hperm.
  split.
  - by rewrite length_take, (Permutation_length Hperm).
  - intros Hle. rewrite take_ge; [done |].
    by rewrite (Permutation_length Hperm).
Qed.

(** ** Seeding, again *)

Ltac decide_leb :=
  repeat match goal with
    | |- context [(?a <=? ?b)%Z] =>
        first [ rewrite (proj2 (Z.leb_le a b)) by lia
              | rewrite (proj2 (Z.leb_gt a b)) by lia ]
    end.

(** X16. On a store without Homework the seed route stores its three
    Homework rows under the ids 1, 2 and 3 (whatever their [created_at]
    stamps), attaches one Resource and one Thread to the first, and
    touches nothing else; the homepage, at any instant up to one day after
    the seeding, lists the three by due date: Chemistry lab, Algebra
    worksheet, Short essay. *)
Theorem seed_then_index (now : datetime) (s : Store) :
  homeworks s = [] ->
  let r := seed now s in
  response r = Body SeededSampleData /\
  flashes r = [] /\
  users (store r) = users s /\
  submissions (store r) = submissions s /\
  exists c1 c2 c3 t x,
    let hw1 := restamp c1 (seed_algebra now) in
    let hw2 := restamp c2 (seed_essay now) in
    let hw3 := restamp c3 (seed_chemistry now) in
    homeworks (store r) = [hw1; hw2; hw3] /\
    threads (store r) = threads s ++ [t] /\
    get_homework (store r) (thread_homework_id t) = Some hw1 /\
    author t = py "Teacher A" /\
    message t = py "Remember to show your steps." /\
    resources (store r) = resources s ++ [x] /\
    get_homework (store r) (resource_homework_id x) = Some hw1 /\
    url x = Some (py "https://example.com/algebra-video") /\
    forall now',
      (now' <= now + timedelta_days 1)%Z ->
      response (index now' (store r)) = IndexPage [hw3; hw1; hw2].
Proof.
  intros Hempty r. subst r. rewrite (seed_store now s Hempty). simpl.
  do 4 (split; [done |]).
  exists (Some now), (Some now), (Some now). do 2 eexists.
  do 8 (split; [reflexivity |]).
  intros now' Hnow'. unfold index, upcoming_homework. simpl. f_equal.
  unfold timedelta_days in Hnow'.
  rewrite !filter_cons, filter_nil.
  rewrite !decide_True by (simpl; unfold timedelta_days; lia).
  unfold seed_algebra, seed_essay, seed_chemistry, timedelta_days.
  repeat (cbn [order_by_due_date foldr insert_by_due_date due_date];
          decide_leb).
  reflexivity.
Qed.

(** ** The calendar feed *)

Lemma py_inj (a b : string) : py a = py b -> a = b.
Proof.
  unfold py. intros H.
  rewrite <- (string_of_list_ascii_of_string a),
          <- (string_of_list_ascii_of_string b).
  f_equal. revert H.
  generalize (list_ascii_of_string a) (list_ascii_of_string b).
  induction l as [|x l IH]; intros [|y l']; simpl; try done.
  intros [= Hxy Hl]. f_equal; [|by apply IH].
  by rewrite <- (ascii_N_embedding x), <- (ascii_N_embedding y), Hxy.
Qed.

Lemma url_for_homework_detail_inj (i j : nat) :
  url_for_homework_detail i = url_for_homework_detail j -> i = j.
Proof.
  unfold url_for_homework_detail, str_of_nat. intros H.
  apply app_inv_head, py_inj in H. by apply (inj pretty) in H.
Qed.

(** X17. The calendar feed has one event per Homework row, in table order
    and under the row's id, titled "<subject>: <title>"; when the ids are
    unique no two events link to the same address. *)
Theorem api_homeworks_events (isoformat : datetime -> pystr) (s : Store) :
  NoDup (map hw_id (homeworks s)) ->
  map event_id (api_homeworks isoformat s) = map hw_id (homeworks s) /\
  map event_title (api_homeworks isoformat s) =
    map (fun hw => subject hw ++ py ": " ++ title hw) (homeworks s) /\
  NoDup (map event_url (api_homeworks isoformat s)).
Proof.
  intros Hids. unfold api_homeworks. rewrite !map_map. simpl.
  repeat split.
  change (NoDup (map (fun x => url_for_homework_detail (hw_id x))
                   (homeworks s))).
  rewrite <- (map_map hw_id url_for_homework_detail).
  apply (NoDup_fmap_2 (A := nat)); [|done].
  intros i j. apply url_for_homework_detail_inj.
Qed.

(** ** What a response tells about the store *)

Lemma seed_response (now : datetime) (s : Store) :
  flashes (seed now s) = [] /\
  exists b, response (seed now s) = Body b.
Proof.
  destruct (homeworks s) as [|hw hs] eqn:E.
  - rewrite (seed_store now s E). by eauto.
  - rewrite seed_already_seeded by (rewrite E; simpl; lia). by eauto.
Qed.

(** X18. A request that fails leaves no trace: whenever the response is a
    404, a 400 or a server error, the store is as it was and nothing was
    flashed. *)
Theorem dispatch_error_no_write (fromisoformat : pystr -> option datetime)
    (now : datetime) (c : Call) (s : Store) :
  let r := dispatch fromisoformat now c s in
  response r = NotFound \/ response r = BadRequest \/
    (exists e, response r = ServerError e) ->
  store r = s /\ flashes r = [].
Proof.
  destruct c as [|req|hid req|hid req|hid req| |]; simpl.
  - done.
  - unfold create_homework, add_homework.
    repeat case_match; simpl; try done; by intros [? | [? | [? ?]]].
  - unfold homework_detail, add_thread.
    repeat case_match; simpl; try done; by intros [? | [? | [? ?]]].
  - unfold add_resource, add_resource_row.
    repeat case_match; simpl; try done; by intros [? | [? | [? ?]]].
  - unfold submit_homework, add_user, add_submission.
    repeat case_match; simpl; try done; by intros [? | [? | [? ?]]].
  - unfold dashboard. by case_match.
  - destruct (seed_response now s) as [_ [b Hb]]. rewrite Hb.
    by intros [? | [? | [? ?]]].
Qed.

Lemma store_eta (s : Store) :
  s = mkStore (users s) (homeworks s) (threads s) (resources s)
        (submissions s).
Proof. by destruct s. Qed.

Ltac flash_cases :=
  repeat case_match; simpl;
  (split; [lia |]); intros msg cat Hin;
  [ try (by apply not_elem_of_nil in Hin);
    try (apply list_elem_of_singleton in Hin; injection Hin as -> ->;
         split; [done |]; eauto 10) .. ].

(** X19. Flashed messages tell the truth: a request flashes at most one
    message; a success message means exactly one row was added to the table
    it names and the other content tables are as they were, and the
    empty-submission warning means no Submission row was added. *)
Theorem dispatch_flash (fromisoformat : pystr -> option datetime)
    (now : datetime) (c : Call) (s : Store) :
  let r := dispatch fromisoformat now c s in
  length (flashes r) <= 1 /\
  forall msg cat, (msg, cat) ∈ flashes r ->
    match msg with
    | HomeworkCreated =>
        cat = success /\
        exists hw, store r = mkStore (users s) (homeworks s ++ [hw])
                               (threads s) (resources s) (submissions s)
    | CommentPosted =>
        cat = success /\
        exists t, store r = mkStore (users s) (homeworks s) (threads s ++ [t])
                              (resources s) (submissions s)
    | ResourceAdded =>
        cat = success /\
        exists x, store r = mkStore (users s) (homeworks s) (threads s)
                              (resources s ++ [x]) (submissions s)
    | SubmittedSuccessfully =>
        cat = success /\
        exists us sub,
          store r = mkStore (users s ++ us) (homeworks s) (threads s)
                      (resources s) (submissions s ++ [sub])
    | SubmissionCannotBeEmpty =>
        cat = warning /\
        exists us,
          store r = mkStore (users s ++ us) (homeworks s) (threads s)
                      (resources s) (submissions s)
    end.
Proof.
  destruct c as [|req|hid req|hid req|hid req| |]; simpl.
  - split; [simpl; lia |]. intros msg cat Hin. by apply not_elem_of_nil in Hin.
  - unfold create_homework, add_homework. flash_cases.
  - unfold homework_detail, add_thread. flash_cases.
  - unfold add_resource, add_resource_row. flash_cases.
  - destruct (get_homework s hid) as [hw|] eqn:Hhw.
    + destruct (submit_homework_student now hid req s hw Hhw)
        as (u & _ & Hus & Hh & Ht & Hr & _ & Hsub).
      assert (exists us, users (store (submit_homework now hid req s))
                         = users s ++ us) as [us Hus'].
      { destruct Hus as [[_ ->] | [_ ->]]; [exists [] | exists [u]];
          by rewrite ?app_nil_r. }
      rewrite (store_eta (store (submit_homework now hid req s))).
      rewrite Hus', Hh, Ht, Hr.
      destruct (form req !! py "content") as [[|c0 k]|].
      * destruct Hsub as [-> ->]. split; [simpl; lia |]. intros msg cat Hin.
        apply list_elem_of_singleton in Hin. injection Hin as -> ->. eauto.
      * destruct Hsub as (sub & -> & _ & _ & _ & ->).
        split; [simpl; lia |]. intros msg cat Hin.
        apply list_elem_of_singleton in Hin. injection Hin as -> ->. eauto.
      * destruct Hsub as [-> ->]. split; [simpl; lia |]. intros msg cat Hin.
        apply list_elem_of_singleton in Hin. injection Hin as -> ->. eauto.
    + unfold submit_homework. rewrite Hhw. simpl.
      split; [lia |]. intros msg cat Hin. by apply not_elem_of_nil in Hin.
  - unfold dashboard. flash_cases.
  - destruct (seed_response now s) as [-> _].
    split; [simpl; lia |]. intros msg cat Hin. by apply not_elem_of_nil in Hin.
Qed.

(** ** The dashboard on a dangling submission *)

(** X20. The dashboard assumes the foreign key: if some Submission row
    names a Homework id that no row has, the second loop reads the subject
    of a missing homework and the request ends in an [AttributeError], with
    nothing stored or flashed. *)
Theorem dashboard_dangling (now : datetime) (s : Store) (sub : Submission) :
  sub ∈ submissions s ->
  homework_id sub ∉ map hw_id (homeworks s) ->
  dashboard now s = mkResult s [] (ServerError AttributeError).
Proof.
  intros Hsub Hnone. apply get_homework_None in Hnone.
  unfold dashboard. rewrite subject_breakdown_raises; [done |].
  unfold submissions_reference_homework. rewrite Forall_forall.
  intros Hall. destruct (Hall sub Hsub) as [hw Hhw]. congruence.
Qed.

(** ** The further theorems at concrete inputs *)

Lemma empty_store_ids_unique : ids_unique empty_store.
Proof. repeat split; constructor. Defined.

Lemma run_ids_unique_witness :
  ids_unique empty_store /\
  ids_unique (run sample_fromisoformat sample_calls empty_store).
Proof.
  split; [exact empty_store_ids_unique |].
  apply (run_ids_unique sample_fromisoformat sample_calls empty_store).
  exact empty_store_ids_unique.
Defined.

Lemma empty_store_references_exist : references_exist empty_store.
Proof. repeat split; constructor. Defined.

Lemma run_references_exist_witness :
  references_exist empty_store /\
  references_exist (run sample_fromisoformat sample_calls empty_store).
Proof.
  split; [exact empty_store_references_exist |].
  apply (run_references_exist sample_fromisoformat sample_calls empty_store).
  exact empty_store_references_exist.
Defined.

Lemma run_user_names_unique_witness :
  user_names_unique empty_store /\
  user_names_unique (run sample_fromisoformat sample_calls empty_store).
Proof.
  split; [constructor |].
  apply (run_user_names_unique sample_fromisoformat sample_calls empty_store).
  constructor.
Defined.

Lemma empty_store_rows_checked : rows_checked empty_store.
Proof. repeat split; constructor. Defined.

Lemma run_rows_checked_witness :
  rows_checked empty_store /\
  rows_checked (run sample_fromisoformat sample_calls empty_store).
Proof.
  split; [exact empty_store_rows_checked |].
  apply (run_rows_checked sample_fromisoformat sample_calls empty_store).
  exact empty_store_rows_checked.
Defined.

Lemma run_avg_grade_none_witness :
  ungraded empty_store /\
  submissions_reference_homework empty_store /\
  exists ctx,
    response (dashboard 4%Z (run sample_fromisoformat sample_calls empty_store))
      = DashboardPage ctx /\
    avg_grade ctx = None /\
    ungraded (run sample_fromisoformat sample_calls empty_store).
Proof.
  split; [constructor |]. split; [constructor |].
  apply (run_avg_grade_none sample_fromisoformat sample_calls 4%Z empty_store);
    constructor.
Defined.

Example sample_calls_store :
  let s := run sample_fromisoformat sample_calls empty_store in
  map user_name (users s) = [py "Student"; py "Alice"] /\
  map hw_id (homeworks s) = [1; 2; 3] /\
  map message (threads s) = [py "Remember to show your steps."; py "when?"] /\
  map student_id (submissions s) = [1; 2].
Proof. vm_compute. repeat split. Qed.

Lemma homework_not_found_witness :
  (Z.of_nat 7 < 2 ^ 63)%Z /\
  (7 ∉ map hw_id (homeworks one_homework)) /\
  homework_detail 0%Z 7 padded_comment one_homework
    = mkResult one_homework [] NotFound /\
  (method padded_comment = POST ->
   add_resource 0%Z 7 padded_comment one_homework
     = mkResult one_homework [] NotFound /\
   submit_homework 0%Z 7 padded_comment one_homework
     = mkResult one_homework [] NotFound).
Proof.
  assert (Z.of_nat 7 < 2 ^ 63)%Z as Hb by (simpl; lia).
  assert (7 ∉ map hw_id (homeworks one_homework)) as H.
  { simpl. apply not_elem_of_cons. split; [lia | apply not_elem_of_nil]. }
  split; [exact Hb |]. split; [exact H |].
  exact (homework_not_found 0%Z 7 padded_comment one_homework Hb H).
Defined.

Lemma create_homework_missing_field_witness :
  method untitled = POST /\
  (form untitled !! py "title" = None \/
   form untitled !! py "subject" = None \/
   form untitled !! py "due_date" = None) /\
  create_homework sample_fromisoformat 0%Z untitled one_homework
    = mkResult one_homework [] BadRequest.
Proof.
  split; [reflexivity |]. split; [left; reflexivity |].
  apply (create_homework_missing_field sample_fromisoformat 0%Z untitled
           one_homework); [reflexivity | left; reflexivity].
Defined.

Lemma create_homework_then_detail_witness :
  method due_2030 = POST /\
  form due_2030 !! py "title" = Some (py "Worksheet") /\
  form due_2030 !! py "subject" = Some (py "Math") /\
  form due_2030 !! py "due_date" = Some (py "2030-01-01T09:00") /\
  sample_fromisoformat (py "2030-01-01T09:00") = Some 1893488400000000%Z /\
  method get_request = GET /\
  submissions_reference_homework scenario /\
  let s' := store (create_homework sample_fromisoformat 5%Z due_2030 scenario) in
  let i := next_id (map hw_id (homeworks scenario)) in
  exists hw,
    get_homework s' i = Some hw /\
    hw_id hw = i /\ title hw = py "Worksheet" /\ subject hw = py "Math" /\
    due_date hw = 1893488400000000%Z /\
    (forall j old, get_homework scenario j = Some old ->
                   get_homework s' j = Some old) /\
    homework_detail 6%Z i get_request s'
      = mkResult s' [] (HomeworkDetailPage hw []).
Proof.
  do 6 (split; [reflexivity |]). split; [exact scenario_invariant |].
  apply (create_homework_then_detail sample_fromisoformat 5%Z 6%Z due_2030
           get_request scenario (py "Worksheet") (py "Math")
           (py "2030-01-01T09:00") 1893488400000000%Z);
    try reflexivity.
  exact scenario_invariant.
Defined.

Lemma submit_homework_twice_witness :
  get_homework one_homework 1 = Some worksheet /\
  or_default (form alice_blank !! py "student_name") (py "Student") =
    or_default
      (form (mkRequest POST {[ py "student_name" := py "Alice";
                               py "content" := py "now with text" ]})
         !! py "student_name") (py "Student") /\
  let req2 := mkRequest POST {[ py "student_name" := py "Alice";
                                py "content" := py "now with text" ]} in
  let s1 := store (submit_homework 1%Z 1 alice_blank one_homework) in
  let s2 := store (submit_homework 2%Z 1 req2 s1) in
  users s2 = users s1 /\
  exists u news,
    u ∈ users s1 /\
    submissions s2 = submissions one_homework ++ news /\
    Forall (fun sub => student_id sub = user_id u) news.
Proof.
  split; [reflexivity |]. split; [reflexivity |].
  apply (submit_homework_twice 1%Z 2%Z 1 1 alice_blank
           (mkRequest POST {[ py "student_name" := py "Alice";
                              py "content" := py "now with text" ]})
           one_homework worksheet); reflexivity.
Defined.

Lemma submit_homework_then_detail_witness :
  get_homework one_homework 1 = Some worksheet /\
  form nameless !! py "content" = Some (py "my answer") /\
  py "my answer" <> [] /\
  method get_request = GET /\
  let s' := store (submit_homework 7%Z 1 nameless one_homework) in
  exists sub,
    content sub = Some (py "my answer") /\
    homework_id sub = 1 /\
    homework_detail 8%Z 1 get_request s' =
      mkResult s' []
        (HomeworkDetailPage worksheet
           (filter (fun x => homework_id x = 1) (submissions one_homework)
            ++ [sub])).
Proof.
  split; [reflexivity |]. split; [reflexivity |]. split; [discriminate |].
  split; [reflexivity |].
  apply (submit_homework_then_detail 7%Z 8%Z 1 nameless get_request
           one_homework worksheet (py "my answer"));
    [reflexivity | reflexivity | discriminate | reflexivity].
Defined.

Lemma submit_homework_completed_witness :
  get_homework one_homework 1 = Some worksheet /\
  form nameless !! py "content" = Some (py "my answer") /\
  py "my answer" <> [] /\
  completed_count (store (submit_homework 7%Z 1 nameless one_homework)) =
    if decide (1 ∈ map homework_id (submissions one_homework))
    then completed_count one_homework
    else S (completed_count one_homework).
Proof.
  split; [reflexivity |]. split; [reflexivity |]. split; [discriminate |].
  apply (submit_homework_completed 7%Z 1 nameless one_homework worksheet
           (py "my answer")); [reflexivity | reflexivity | discriminate].
Defined.

Lemma dashboard_bounds_witness :
  submissions_reference_homework scenario /\
  exists ctx,
    response (dashboard 1500%Z scenario) = DashboardPage ctx /\
    pending ctx <= total ctx /\
    completed ctx <= total ctx /\
    completed ctx <= length (submissions scenario).
Proof.
  split; [exact scenario_invariant |].
  apply (dashboard_bounds 1500%Z scenario). exact scenario_invariant.
Defined.

Lemma dashboard_subjects_sum_witness :
  submissions_reference_homework three_submissions /\
  exists ctx,
    response (dashboard 0%Z three_submissions) = DashboardPage ctx /\
    sum_total (subjects ctx) = total ctx /\
    sum_submitted (subjects ctx) = length (submissions three_submissions).
Proof.
  split; [exact three_submissions_invariant |].
  apply (dashboard_subjects_sum 0%Z three_submissions).
  exact three_submissions_invariant.
Defined.

Lemma upcoming_homework_length_witness :
  submissions_reference_homework scenario /\
  exists ctx,
    response (dashboard 1500%Z scenario) = DashboardPage ctx /\
    length (upcoming_homework 1500%Z 10 scenario) = 10 `min` pending ctx /\
    (pending ctx <= 10 ->
     upcoming_homework 1500%Z 10 scenario ≡ₚ
       filter (fun hw => (1500 <= due_date hw)%Z) (homeworks scenario)).
Proof.
  split; [exact scenario_invariant |].
  apply (upcoming_homework_length 1500%Z 10 scenario).
  exact scenario_invariant.
Defined.

Lemma seed_then_index_witness :
  homeworks empty_store = [] /\
  let r := seed 0%Z empty_store in
  response r = Body SeededSampleData /\
  flashes r = [] /\
  users (store r) = users empty_store /\
  submissions (store r) = submissions empty_store /\
  exists c1 c2 c3 t x,
    let hw1 := restamp c1 (seed_algebra 0%Z) in
    let hw2 := restamp c2 (seed_essay 0%Z) in
    let hw3 := restamp c3 (seed_chemistry 0%Z) in
    homeworks (store r) = [hw1; hw2; hw3] /\
    threads (store r) = threads empty_store ++ [t] /\
    get_homework (store r) (thread_homework_id t) = Some hw1 /\
    author t = py "Teacher A" /\
    message t = py "Remember to show your steps." /\
    resources (store r) = resources empty_store ++ [x] /\
    get_homework (store r) (resource_homework_id x) = Some hw1 /\
    url x = Some (py "https://example.com/algebra-video") /\
    forall now',
      (now' <= 0 + timedelta_days 1)%Z ->
      response (index now' (store r)) = IndexPage [hw3; hw1; hw2].
Proof.
  split; [reflexivity |].
  apply (seed_then_index 0%Z empty_store). reflexivity.
Defined.

Lemma api_homeworks_events_witness :
  NoDup (map hw_id (homeworks scenario)) /\
  map event_id (api_homeworks sample_isoformat scenario)
    = map hw_id (homeworks scenario) /\
  map event_title (api_homeworks sample_isoformat scenario) =
    map (fun hw => subject hw ++ py ": " ++ title hw) (homeworks scenario) /\
  NoDup (map event_url (api_homeworks sample_isoformat scenario)).
Proof.
  assert (NoDup (map hw_id (homeworks scenario))) as H.
  { simpl. apply NoDup_cons. split.
    - apply not_elem_of_cons. split; [lia | apply not_elem_of_nil].
    - apply NoDup_singleton. }
  split; [exact H |].
  exact (api_homeworks_events sample_isoformat scenario H).
Defined.

Example api_homeworks_scenario :
  api_homeworks sample_isoformat scenario =
    [mkEvent 1 (py "Math: Worksheet") [] (py "/homework/1")
       (Some (py "#2d9cdb"));
     mkEvent 2 (py "English: Essay") [] (py "/homework/2")
       (Some (py "#ffd93d"))].
Proof. vm_compute. reflexivity. Qed.

Lemma dispatch_error_no_write_witness :
  let r := dispatch sample_fromisoformat 0%Z
             (call_create_homework due_tomorrow) one_homework in
  (response r = NotFound \/ response r = BadRequest \/
     (exists e, response r = ServerError e)) /\
  store r = one_homework /\ flashes r = [].
Proof.
  assert (exists e,
            response (dispatch sample_fromisoformat 0%Z
                        (call_create_homework due_tomorrow) one_homework)
            = ServerError e) as H by (by exists ValueError).
  split; [right; right; exact H |].
  apply (dispatch_error_no_write sample_fromisoformat 0%Z
           (call_create_homework due_tomorrow) one_homework).
  right; right; exact H.
Defined.

Lemma dashboard_dangling_witness :
  dangling_submission ∈ submissions dangling /\
  (homework_id dangling_submission ∉ map hw_id (homeworks dangling)) /\
  dashboard 0%Z dangling = mkResult dangling [] (ServerError AttributeError).
Proof.
  assert (dangling_submission ∈ submissions dangling) as H1
    by apply list_elem_of_here.
  assert (homework_id dangling_submission ∉ map hw_id (homeworks dangling))
    as H2.
  { simpl. apply not_elem_of_cons. split; [lia | apply not_elem_of_nil]. }
  split; [exact H1 |]. split; [exact H2 |].
  exact (dashboard_dangling 0%Z dangling dangling_submission H1 H2).
Defined.

Lemma upcoming_homework_earliest_witness :
  worksheet ∈ upcoming_homework 0%Z 1 scenario /\
  essay ∈ homeworks scenario /\
  (0 <= due_date essay)%Z /\
  (essay ∉ upcoming_homework 0%Z 1 scenario) /\
  due_le worksheet essay.
Proof.
  assert (worksheet ∈ upcoming_homework 0%Z 1 scenario) as H1
    by apply list_elem_of_here.
  assert (essay ∈ homeworks scenario) as H2
    by apply list_elem_of_further, list_elem_of_here.
  assert (0 <= due_date essay)%Z as H3 by (simpl; lia).
  assert (essay ∉ upcoming_homework 0%Z 1 scenario) as H4.
  { change (essay ∉ [worksheet]). apply not_elem_of_cons.
    split; [discriminate | apply not_elem_of_nil]. }
  do 4 (split; [assumption |]).
  exact (upcoming_homework_earliest 0%Z 1 scenario worksheet essay
           H1 H2 H3 H4).
Defined.

(** ** Averages and means at concrete grades *)

(** The grades 80 and 90 average to 85, which is their arithmetic mean. *)
Example average_exact :
  average [80%float; 90%float] = Some 85%float /\
  is_arithmetic_mean [80%float; 90%float] 85%float.
Proof.
  split; [vm_compute; reflexivity |].
  do 2 eexists. split; [vm_compute; reflexivity |].
  split; [vm_compute; reflexivity |]. vm_compute. reflexivity.
Qed.

(** The grades 80, 90 and 90 average to a float that is a number but not
    their arithmetic mean, 260/3, which no float is: the quotient was
    rounded. *)
Example average_rounded :
  exists r,
    average [80%float; 90%float; 90%float] = Some r /\
    is_Some (float_value r) /\
    ~ is_arithmetic_mean [80%float; 90%float; 90%float] r.
Proof.
  eexists. split; [vm_compute; reflexivity |]. split.
  - vm_compute. by eexists.
  - intros (q & qs & Hq & Hqs & Hmean).
    vm_compute in Hq, Hqs. injection Hq as <-. injection Hqs as <-.
    vm_compute in Hmean. discriminate Hmean.
Qed.
